(** * carefree-data: processor offsets and the dataset splitter

  A shallow embedding of [cfdata/tabular/processors/base.py] (the
  [Processor] base class) and of [cfdata/tabular/utils.py] (the
  [DataSplitter]), with the properties of the specification that concern
  them.

  Conventions.
  - numpy integer arrays are [list Z]; a Python list of arrays is a
    [list (list Z)].
  - A Python float is the rational it stands for; every float operation
    rounds its exact result to the nearest binary64 value, ties to even
    (module [Float]). Overflow, subnormals, infinities and NaN are left
    out: the numbers here are counts, ratios of counts and fractions.
  - An attribute that no statement has assigned yet is [None] at the outer
    level of its type; reading it raises [AttributeError].
  - The process-wide random source is a tape of naturals ([rng]); every
    [np.random.shuffle] consumes entries of the tape, so that a run is a
    function of the tape and every permutation is a possible outcome.
  - Exceptions are values of [error]; a method of the splitter is a state
    transformer that returns either an error or a result, together with
    the splitter as the exception (or the return) leaves it. *)

From Stdlib Require Import ZArith QArith Qround Qabs List Lia Bool Permutation.
From stdpp Require Import gmap.
Import ListNotations.

Local Open Scope Z_scope.

(* ===================================================================== *)
(** * Python and numpy primitives *)
(* ===================================================================== *)

Module Py.

(** [len(l)] as a Python integer. *)
Definition len {A} (l : list A) : Z := Z.of_nat (length l).

(** The position a slice bound [i] denotes in a sequence of length [n]:
    negative bounds count from the end, and everything is clamped. *)
Definition bound (n i : Z) : nat :=
  Z.to_nat (if i <? 0 then Z.max 0 (n + i) else Z.min i n).

(** [l[i:]] *)
Definition slice_from {A} (l : list A) (i : Z) : list A :=
  skipn (bound (len l) i) l.

(** [l[:i]] *)
Definition slice_to {A} (l : list A) (i : Z) : list A :=
  firstn (bound (len l) i) l.

(** [range(a, b)] and [np.arange(a, b)] *)
Definition range (a b : Z) : list Z :=
  map (fun k => a + Z.of_nat k) (seq 0 (Z.to_nat (b - a))).

(** [np.arange(n)] *)
Definition arange (n : Z) : list Z := range 0 n.

(** [sum(l)] *)
Definition sum (l : list Z) : Z := fold_right Z.add 0 l.

(** [np.cumsum(l)] *)
Fixpoint cumsum_from (acc : Z) (l : list Z) : list Z :=
  match l with
  | [] => []
  | x :: l' => (acc + x) :: cumsum_from (acc + x) l'
  end.
Definition cumsum (l : list Z) : list Z := cumsum_from 0 l.

(** membership test on integer arrays *)
Definition mem (x : Z) (l : list Z) : bool := existsb (Z.eqb x) l.

(** [np.delete(arr, positions)]: the entries of [arr] whose position is
    not listed. *)
Fixpoint delete_from (k : Z) (arr : list Z) (positions : list Z) : list Z :=
  match arr with
  | [] => []
  | x :: arr' =>
      if mem k positions then delete_from (k + 1) arr' positions
      else x :: delete_from (k + 1) arr' positions
  end.
Definition np_delete (arr positions : list Z) : list Z :=
  delete_from 0 arr positions.

(** [int(q)]: truncation towards zero. *)
Definition int_of (q : Q) : Z := Z.quot (Qnum q) (Zpos (Qden q)).

(** [np.round(q)]: to the nearest integer, ties to the even one. *)
Definition round_half_even (q : Q) : Z :=
  let f := Qfloor q in
  match Qcompare (q - inject_Z f) (1 # 2) with
  | Lt => f
  | Gt => f + 1
  | Eq => if Z.even f then f else f + 1
  end.

(** [np.argmax(mask)] for a boolean array: the first position that is
    true, and 0 when none is. *)
Fixpoint first_true (mask : list bool) : option nat :=
  match mask with
  | [] => None
  | b :: mask' => if b then Some 0%nat else option_map S (first_true mask')
  end.
Definition argmax (mask : list bool) : nat :=
  match first_true mask with Some i => i | None => 0%nat end.

(** [l[a:b]] *)
Definition slice {A} (l : list A) (a b : Z) : list A :=
  firstn (bound (len l) b - bound (len l) a) (skipn (bound (len l) a) l).

(** [np.split(l, indices)]: the pieces between consecutive division
    points, the first from 0 and the last to the end. *)
Definition np_split (l : list Z) (indices : list Z) : list (list Z) :=
  map (fun '(st, en) => slice l st en)
      (combine (0 :: indices) (indices ++ [len l])).

End Py.

(* ===================================================================== *)
(** * Floating-point numbers *)
(* ===================================================================== *)

Module Float.

(** [2 ** e] for an integer [e] of either sign *)
Definition pow2 (e : Z) : Q :=
  if 0 <=? e then inject_Z (2 ^ e) else 1 # Z.to_pos (2 ^ (- e)).

(** The binary64 value nearest to [q]: a significand of 53 bits, ties to
    the even significand. *)
Definition round_to_double (q : Q) : Q :=
  if Qeq_bool q 0 then 0%Q else
  let a := Z.abs (Qnum q) in
  let b := Zpos (Qden q) in
  let e0 := Z.log2 a - Z.log2 b - 52 in
  let scaled := fun e => (Qabs q * pow2 (- e))%Q in
  let e := if Qle_bool (inject_Z (2 ^ 52)) (scaled e0) then e0 else e0 - 1 in
  let m := Py.round_half_even (scaled e) in
  Qred (inject_Z (Z.sgn (Qnum q) * m) * pow2 e)%Q.

(** [float(z)] and the arithmetic of floats *)
Definition of_int (z : Z) : Q := round_to_double (inject_Z z).
Definition add (a b : Q) : Q := round_to_double (a + b).
Definition sub (a b : Q) : Q := round_to_double (a - b).
Definition mul (a b : Q) : Q := round_to_double (a * b).
Definition div (a b : Q) : Q := round_to_double (a / b).

End Float.

(* ===================================================================== *)
(** * The random source *)
(* ===================================================================== *)

Module Rand.

(** The state of the generator: the draws still to come. *)
Definition rng := list nat.

Definition insert_at {A} (k : nat) (x : A) (l : list A) : list A :=
  firstn k l ++ x :: skipn k l.

(** [np.random.shuffle(l)]: every element is inserted at a drawn position
    among the ones already placed; an exhausted tape draws 0. *)
Fixpoint shuffle {A} (g : rng) (l : list A) : list A * rng :=
  match l with
  | [] => ([], g)
  | x :: l' =>
      let '(r, g') := shuffle g l' in
      match g' with
      | [] => (x :: r, [])
      | k :: g'' => (insert_at (k mod S (length r)) x r, g'')
      end
  end.

(** [tuple(map(np.random.shuffle, arrays))]: each array in turn. *)
Fixpoint shuffle_each {A} (g : rng) (ls : list (list A)) : list (list A) * rng :=
  match ls with
  | [] => ([], g)
  | l :: ls' =>
      let '(l1, g1) := shuffle g l in
      let '(ls1, g2) := shuffle_each g1 ls' in
      (l1 :: ls1, g2)
  end.

End Rand.

(* ===================================================================== *)
(** * processors/base.py: the Processor base class *)
(* ===================================================================== *)

Module Processors.

(** Arrays live in a store; a variable holds a reference. *)
Definition loc := nat.
Definition ndarray := list (list Z).
Abbreviation store := (gmap loc ndarray).

(** What a concrete subclass supplies: the abstract properties
    [input_dim] and [output_dim] and the abstract methods [_process] and
    [_recover], which receive a reference and may write through it. *)
Record Subclass := {
  cls_input_dim : Z;
  cls_output_dim : Z;
  cls_process : loc -> store -> loc * store;
  cls_recover : loc -> store -> loc * store
}.

#[local] Unset Elimination Schemes.
Inductive Processor := mkProcessor {
  cls : Subclass;
  _inplace : bool;
  _previous_processors : list Processor;
  _col_indices : list Z
}.
#[local] Set Elimination Schemes.

Definition input_dim (p : Processor) : Z := cls_input_dim (cls p).
Definition output_dim (p : Processor) : Z := cls_output_dim (cls p).

(** [Processor.__init__] *)
Definition init (c : Subclass) (previous_processors : list Processor)
    (inplace : bool) : Processor :=
  let start_idx := Py.sum (map input_dim previous_processors) in
  {| cls := c;
     _inplace := inplace;
     _previous_processors := previous_processors;
     _col_indices :=
       map (fun i => start_idx + i) (Py.range 0 (cls_input_dim c)) |}.

(** [Processor.input_indices] *)
Definition input_indices (p : Processor) : list Z := _col_indices p.

(** [Processor.output_indices] *)
Definition output_indices (p : Processor) : list Z :=
  let previous_dimensions := Py.sum (map output_dim (_previous_processors p)) in
  Py.range previous_dimensions (previous_dimensions + output_dim p).

(** The loop of the orchestrator that places processors: each new one
    receives a copy of the list of those placed so far, and is then
    appended to it. *)
Fixpoint place (previous_processors : list Processor)
    (classes : list (Subclass * bool)) : list Processor :=
  match classes with
  | [] => previous_processors
  | (c, inplace) :: classes' =>
      place (previous_processors ++ [init c previous_processors inplace]) classes'
  end.

(** [columns.copy()]: a fresh array with the same contents. *)
Definition copy (columns : loc) (h : store) : loc * store :=
  let l := fresh (dom h) in
  (l, match h !! columns with
      | Some a => <[l := a]> h
      | None => h
      end).

(** [Processor.process] *)
Definition process (p : Processor) (columns : loc) (h : store) : loc * store :=
  let '(columns, h) :=
    if negb (_inplace p) then copy columns h else (columns, h) in
  cls_process (cls p) columns h.

(** [Processor.recover] *)
Definition recover (p : Processor) (columns : loc) (inplace : bool)
    (h : store) : loc * store :=
  let '(columns, h) :=
    if negb inplace then copy columns h else (columns, h) in
  cls_recover (cls p) columns h.

(** A method that writes only through the reference it was given (and to
    arrays it allocates itself). *)
Definition writes_only_argument (f : loc -> store -> loc * store) : Prop :=
  forall (l l' : loc) (h : store),
    l' <> l -> is_Some (h !! l') -> (f l h).2 !! l' = h !! l'.

(** Every processor of [ps] was constructed with the processors before
    it, in order. *)
Definition chained (ps : list Processor) : Prop :=
  forall i p, nth_error ps i = Some p ->
    exists c inplace, p = init c (firstn i ps) inplace.

End Processors.

(* ===================================================================== *)
(** * utils.py: the DataSplitter *)
(* ===================================================================== *)

Module Splitter.
Import Py Rand.

(** A request [n] is a Python [int] or a Python [float]; a float written
    as [PFloat q] is the binary64 value nearest to [q]. *)
Inductive pynum := PInt (z : Z) | PFloat (q : Q).

(** the number a request stands for *)
Definition to_Q (n : pynum) : Q :=
  match n with
  | PInt z => inject_Z z
  | PFloat q => Float.round_to_double q
  end.

(** the same after conversion to a float *)
Definition to_float (n : pynum) : Q :=
  match n with
  | PInt z => Float.of_int z
  | PFloat q => Float.round_to_double q
  end.

(** comparisons: Python compares an int with a float by value *)
Definition lt_num (a b : pynum) : bool := negb (Qle_bool (to_Q b) (to_Q a)).
Definition le_num (a b : pynum) : bool := Qle_bool (to_Q a) (to_Q b).
Definition eq_num (a b : pynum) : bool := Qeq_bool (to_Q a) (to_Q b).

(** [a + b], [a - b] and [a * b]: exact on ints, rounded as soon as one
    side is a float *)
Definition add_num (a b : pynum) : pynum :=
  match a, b with
  | PInt x, PInt y => PInt (x + y)
  | _, _ => PFloat (Float.add (to_float a) (to_float b))
  end.
Definition sub_num (a b : pynum) : pynum :=
  match a, b with
  | PInt x, PInt y => PInt (x - y)
  | _, _ => PFloat (Float.sub (to_float a) (to_float b))
  end.
Definition mul_num (a b : pynum) : pynum :=
  match a, b with
  | PInt x, PInt y => PInt (x * y)
  | _, _ => PFloat (Float.mul (to_float a) (to_float b))
  end.

(** [sum(n_list)] *)
Definition sum_num (l : list pynum) : pynum := fold_left add_num l (PInt 0).

(** [int(n)] *)
Definition int_num (n : pynum) : Z :=
  match n with
  | PInt z => z
  | PFloat q => int_of (Float.round_to_double q)
  end.

(** [int(total * n)] *)
Definition int_mul (total : Z) (n : pynum) : Z :=
  int_num (mul_num (PInt total) n).

(** The exceptions the splitter can end with. The first group are the
    [ValueError]s the source raises itself, told apart by their message;
    the second are raised by [assert], by numpy or by the interpreter. *)
Inductive error :=
| NotReset              (* please call 'reset' method before calling 'split' method *)
| InsufficientLabels    (* at least .. samples are required because we have .. unique labels *)
| SingleLabel           (* only 1 unique label is detected *)
| ReplaceTimeSeries     (* `replace` cannot be True when splitting time series dataset *)
| MissingColumn         (* id_column / time_column should be provided *)
| MixedColumns          (* id_column & time_column should both be int *)
| MixedList             (* some of the elements in `n_list` (but not all) are less than 1 *)
| SumAboveOne           (* sum of `n_list` should not be greater than 1 *)
| SumIsOne              (* sum of `n_list` should be less than 1 when `return_remained` is True *)
| UnpackError           (* ValueError: too many values to unpack *)
| AssertionError
| AttributeError        (* an attribute that was never assigned *)
| OverflowError         (* int(np.ceil(e / 0)) *)
| EmptyInput            (* numpy or list operation on an empty sequence *)
| IndexError
| TypeError.            (* an operation on None, or a float where an index is needed *)

(** Modelled from the spec: the enumeration [TaskTypes] of the package's
    [types] module is not among the sources; the splitter only tests a
    task type for being [REGRESSION]. *)
Inductive TaskTypes := REGRESSION | CLASSIFICATION.

Definition is_REGRESSION (t : TaskTypes) : bool :=
  match t with REGRESSION => true | CLASSIFICATION => false end.

(** Modelled from the spec: [TabularDataset] of the package's [types]
    module is not among the sources; the splitter reads its feature rows,
    its labels (flattened) and its task type. *)
Record TabularDataset := {
  x : list (list Z);
  y : list Z;
  task_type : TaskTypes
}.

(** How the time-series configuration names a column: by the values
    themselves, or by a position in the feature matrix. *)
Inductive column_setting :=
| ColumnValues (values : list Z)
| ColumnPosition (k : Z).

Record time_series_config := {
  cfg_id_column : option column_setting;
  cfg_time_column : option column_setting
}.

Record SplitResult := {
  dataset_rows : list Z;           (* the rows the returned dataset is made of *)
  corresponding_indices : list Z;
  remaining_indices : list Z
}.

(** What [fit] assigns in one go: [_is_regression], [_x] and [_y] (and
    [_dataset], which stands behind them). *)
Record FitData := {
  _is_regression : bool;
  _x : list (list Z);
  _y : list Z
}.

(** What [_reset_clf] assigns in one go, next to [_label_indices_list]. *)
Record LabelStatistics := {
  _n_samples : Z;
  _label_ratios : list Q;
  _n_unique_labels : Z
}.

(** The attributes of a [DataSplitter]. The constructor assigns [None] to
    the index lists and nothing to the attributes of the two groups above,
    to [_time_column] and to the cumulative counts: these are unset until
    [fit] or a reset method assigns them. *)
Record DataSplitter := {
  _time_series_config : option time_series_config;
  _shuffle : bool;
  _replace : bool;
  fit_data : option FitData;
  _time_column : option (option (list Z));
  _remained_indices : option (list Z);
  _label_indices_list : option (list (list Z));
  _label_indices_list_in_use : option (list (list Z));
  label_statistics : option LabelStatistics;
  _time_indices_list : option (list (list Z));
  _time_indices_list_in_use : option (list (list Z));
  _times_counts_cumsum : option (list Z);
  _times_counts_cumsum_in_use : option (list Z);
  _time_series_sorting_indices : option (list Z);
  random_state : rng
}.

(** Assignments to one attribute. *)
Definition set_fit_data (v : option FitData) (s : DataSplitter) : DataSplitter :=
  {| _time_series_config := _time_series_config s;
     _shuffle := _shuffle s;
     _replace := _replace s;
     fit_data := v;
     _time_column := _time_column s;
     _remained_indices := _remained_indices s;
     _label_indices_list := _label_indices_list s;
     _label_indices_list_in_use := _label_indices_list_in_use s;
     label_statistics := label_statistics s;
     _time_indices_list := _time_indices_list s;
     _time_indices_list_in_use := _time_indices_list_in_use s;
     _times_counts_cumsum := _times_counts_cumsum s;
     _times_counts_cumsum_in_use := _times_counts_cumsum_in_use s;
     _time_series_sorting_indices := _time_series_sorting_indices s;
     random_state := random_state s |}.

Definition set_time_column (v : option (option (list Z))) (s : DataSplitter) : DataSplitter :=
  {| _time_series_config := _time_series_config s;
     _shuffle := _shuffle s;
     _replace := _replace s;
     fit_data := fit_data s;
     _time_column := v;
     _remained_indices := _remained_indices s;
     _label_indices_list := _label_indices_list s;
     _label_indices_list_in_use := _label_indices_list_in_use s;
     label_statistics := label_statistics s;
     _time_indices_list := _time_indices_list s;
     _time_indices_list_in_use := _time_indices_list_in_use s;
     _times_counts_cumsum := _times_counts_cumsum s;
     _times_counts_cumsum_in_use := _times_counts_cumsum_in_use s;
     _time_series_sorting_indices := _time_series_sorting_indices s;
     random_state := random_state s |}.

Definition set_remained_indices (v : option (list Z)) (s : DataSplitter) : DataSplitter :=
  {| _time_series_config := _time_series_config s;
     _shuffle := _shuffle s;
     _replace := _replace s;
     fit_data := fit_data s;
     _time_column := _time_column s;
     _remained_indices := v;
     _label_indices_list := _label_indices_list s;
     _label_indices_list_in_use := _label_indices_list_in_use s;
     label_statistics := label_statistics s;
     _time_indices_list := _time_indices_list s;
     _time_indices_list_in_use := _time_indices_list_in_use s;
     _times_counts_cumsum := _times_counts_cumsum s;
     _times_counts_cumsum_in_use := _times_counts_cumsum_in_use s;
     _time_series_sorting_indices := _time_series_sorting_indices s;
     random_state := random_state s |}.

Definition set_label_indices_list (v : option (list (list Z))) (s : DataSplitter) : DataSplitter :=
  {| _time_series_config := _time_series_config s;
     _shuffle := _shuffle s;
     _replace := _replace s;
     fit_data := fit_data s;
     _time_column := _time_column s;
     _remained_indices := _remained_indices s;
     _label_indices_list := v;
     _label_indices_list_in_use := _label_indices_list_in_use s;
     label_statistics := label_statistics s;
     _time_indices_list := _time_indices_list s;
     _time_indices_list_in_use := _time_indices_list_in_use s;
     _times_counts_cumsum := _times_counts_cumsum s;
     _times_counts_cumsum_in_use := _times_counts_cumsum_in_use s;
     _time_series_sorting_indices := _time_series_sorting_indices s;
     random_state := random_state s |}.

Definition set_label_indices_list_in_use (v : option (list (list Z))) (s : DataSplitter) : DataSplitter :=
  {| _time_series_config := _time_series_config s;
     _shuffle := _shuffle s;
     _replace := _replace s;
     fit_data := fit_data s;
     _time_column := _time_column s;
     _remained_indices := _remained_indices s;
     _label_indices_list := _label_indices_list s;
     _label_indices_list_in_use := v;
     label_statistics := label_statistics s;
     _time_indices_list := _time_indices_list s;
     _time_indices_list_in_use := _time_indices_list_in_use s;
     _times_counts_cumsum := _times_counts_cumsum s;
     _times_counts_cumsum_in_use := _times_counts_cumsum_in_use s;
     _time_series_sorting_indices := _time_series_sorting_indices s;
     random_state := random_state s |}.

Definition set_label_statistics (v : option LabelStatistics) (s : DataSplitter) : DataSplitter :=
  {| _time_series_config := _time_series_config s;
     _shuffle := _shuffle s;
     _replace := _replace s;
     fit_data := fit_data s;
     _time_column := _time_column s;
     _remained_indices := _remained_indices s;
     _label_indices_list := _label_indices_list s;
     _label_indices_list_in_use := _label_indices_list_in_use s;
     label_statistics := v;
     _time_indices_list := _time_indices_list s;
     _time_indices_list_in_use := _time_indices_list_in_use s;
     _times_counts_cumsum := _times_counts_cumsum s;
     _times_counts_cumsum_in_use := _times_counts_cumsum_in_use s;
     _time_series_sorting_indices := _time_series_sorting_indices s;
     random_state := random_state s |}.

Definition set_time_indices_list (v : option (list (list Z))) (s : DataSplitter) : DataSplitter :=
  {| _time_series_config := _time_series_config s;
     _shuffle := _shuffle s;
     _replace := _replace s;
     fit_data := fit_data s;
     _time_column := _time_column s;
     _remained_indices := _remained_indices s;
     _label_indices_list := _label_indices_list s;
     _label_indices_list_in_use := _label_indices_list_in_use s;
     label_statistics := label_statistics s;
     _time_indices_list := v;
     _time_indices_list_in_use := _time_indices_list_in_use s;
     _times_counts_cumsum := _times_counts_cumsum s;
     _times_counts_cumsum_in_use := _times_counts_cumsum_in_use s;
     _time_series_sorting_indices := _time_series_sorting_indices s;
     random_state := random_state s |}.

Definition set_time_indices_list_in_use (v : option (list (list Z))) (s : DataSplitter) : DataSplitter :=
  {| _time_series_config := _time_series_config s;
     _shuffle := _shuffle s;
     _replace := _replace s;
     fit_data := fit_data s;
     _time_column := _time_column s;
     _remained_indices := _remained_indices s;
     _label_indices_list := _label_indices_list s;
     _label_indices_list_in_use := _label_indices_list_in_use s;
     label_statistics := label_statistics s;
     _time_indices_list := _time_indices_list s;
     _time_indices_list_in_use := v;
     _times_counts_cumsum := _times_counts_cumsum s;
     _times_counts_cumsum_in_use := _times_counts_cumsum_in_use s;
     _time_series_sorting_indices := _time_series_sorting_indices s;
     random_state := random_state s |}.

Definition set_times_counts_cumsum (v : option (list Z)) (s : DataSplitter) : DataSplitter :=
  {| _time_series_config := _time_series_config s;
     _shuffle := _shuffle s;
     _replace := _replace s;
     fit_data := fit_data s;
     _time_column := _time_column s;
     _remained_indices := _remained_indices s;
     _label_indices_list := _label_indices_list s;
     _label_indices_list_in_use := _label_indices_list_in_use s;
     label_statistics := label_statistics s;
     _time_indices_list := _time_indices_list s;
     _time_indices_list_in_use := _time_indices_list_in_use s;
     _times_counts_cumsum := v;
     _times_counts_cumsum_in_use := _times_counts_cumsum_in_use s;
     _time_series_sorting_indices := _time_series_sorting_indices s;
     random_state := random_state s |}.

Definition set_times_counts_cumsum_in_use (v : option (list Z)) (s : DataSplitter) : DataSplitter :=
  {| _time_series_config := _time_series_config s;
     _shuffle := _shuffle s;
     _replace := _replace s;
     fit_data := fit_data s;
     _time_column := _time_column s;
     _remained_indices := _remained_indices s;
     _label_indices_list := _label_indices_list s;
     _label_indices_list_in_use := _label_indices_list_in_use s;
     label_statistics := label_statistics s;
     _time_indices_list := _time_indices_list s;
     _time_indices_list_in_use := _time_indices_list_in_use s;
     _times_counts_cumsum := _times_counts_cumsum s;
     _times_counts_cumsum_in_use := v;
     _time_series_sorting_indices := _time_series_sorting_indices s;
     random_state := random_state s |}.

Definition set_sorting_indices (v : option (list Z)) (s : DataSplitter) : DataSplitter :=
  {| _time_series_config := _time_series_config s;
     _shuffle := _shuffle s;
     _replace := _replace s;
     fit_data := fit_data s;
     _time_column := _time_column s;
     _remained_indices := _remained_indices s;
     _label_indices_list := _label_indices_list s;
     _label_indices_list_in_use := _label_indices_list_in_use s;
     label_statistics := label_statistics s;
     _time_indices_list := _time_indices_list s;
     _time_indices_list_in_use := _time_indices_list_in_use s;
     _times_counts_cumsum := _times_counts_cumsum s;
     _times_counts_cumsum_in_use := _times_counts_cumsum_in_use s;
     _time_series_sorting_indices := v;
     random_state := random_state s |}.

Definition set_random_state (v : rng) (s : DataSplitter) : DataSplitter :=
  {| _time_series_config := _time_series_config s;
     _shuffle := _shuffle s;
     _replace := _replace s;
     fit_data := fit_data s;
     _time_column := _time_column s;
     _remained_indices := _remained_indices s;
     _label_indices_list := _label_indices_list s;
     _label_indices_list_in_use := _label_indices_list_in_use s;
     label_statistics := label_statistics s;
     _time_indices_list := _time_indices_list s;
     _time_indices_list_in_use := _time_indices_list_in_use s;
     _times_counts_cumsum := _times_counts_cumsum s;
     _times_counts_cumsum_in_use := _times_counts_cumsum_in_use s;
     _time_series_sorting_indices := _time_series_sorting_indices s;
     random_state := v |}.

(** ** Methods as state transformers *)

Definition M (A : Type) : Type := DataSplitter -> (error + A) * DataSplitter.

Definition ret {A} (a : A) : M A := fun s => (inr a, s).
Definition raise {A} (e : error) : M A := fun s => (inl e, s).
Definition bind {A B} (m : M A) (f : A -> M B) : M B :=
  fun s => match m s with
           | (inl e, s') => (inl e, s')
           | (inr a, s') => f a s'
           end.
Definition get : M DataSplitter := fun s => (inr s, s).
Definition modify (f : DataSplitter -> DataSplitter) : M unit :=
  fun s => (inr tt, f s).
Definition assert (b : bool) : M unit :=
  if b then ret tt else raise AssertionError.
(** reading an attribute that may be unset *)
Definition attr {A} (o : option A) : M A :=
  match o with Some a => ret a | None => raise AttributeError end.
(** using a value that may be [None] *)
Definition some {A} (o : option A) : M A :=
  match o with Some a => ret a | None => raise TypeError end.

Notation "'do' x <- m ; k" := (bind m (fun x => k))
  (at level 10, x name, m at level 100, k at level 200).
Notation "'do' ' p <- m ; k" :=
  (bind m (fun x => match x with p => k end))
  (at level 10, p strict pattern, m at level 100, k at level 200).
Notation "'do_' m ; k" := (bind m (fun _ => k))
  (at level 10, m at level 100, k at level 200).

(** [np.hstack(arrays)] *)
Definition hstack (arrays : list (list Z)) : M (list Z) :=
  match arrays with
  | [] => raise EmptyInput
  | _ => ret (concat arrays)
  end.

(** [random.shuffle] on the splitter's random source *)
Definition np_shuffle (l : list Z) : M (list Z) :=
  fun s => let '(l', g) := shuffle (random_state s) l in
           (inr l', set_random_state g s).
Definition np_shuffle_each (ls : list (list Z)) : M (list (list Z)) :=
  fun s => let '(ls', g) := shuffle_each (random_state s) ls in
           (inr ls', set_random_state g s).

(** ** [cftool.misc.get_unique_indices]

    A helper of an external package. It returns a named tuple of four
    arrays: the distinct values in ascending order, how often each occurs,
    the positions of the input sorted stably by value, and the points at
    which to cut these positions into one piece per value (the cumulative
    counts without the last). [split_indices] is a property that cuts
    them. *)
Record UniqueIndices := {
  unique : list Z;
  unique_cnt : list Z;
  sorting_indices : list Z;
  split_arr : list Z
}.

Fixpoint insert_unique (v : Z) (l : list Z) : list Z :=
  match l with
  | [] => [v]
  | w :: l' =>
      if v <? w then v :: l
      else if v =? w then l
      else w :: insert_unique v l'
  end.

Definition positions_of (v : Z) (arr : list Z) : list Z :=
  map fst (List.filter (fun p => snd p =? v) (combine (arange (len arr)) arr)).

Definition get_unique_indices (arr : list Z) : UniqueIndices :=
  let u := fold_right insert_unique [] arr in
  let cnt := map (fun v => len (positions_of v arr)) u in
  {| unique := u;
     unique_cnt := cnt;
     sorting_indices := concat (map (fun v => positions_of v arr) u);
     split_arr := removelast (cumsum cnt) |}.

(** [UniqueIndices.split_indices] *)
Definition split_indices (ui : UniqueIndices) : list (list Z) :=
  np_split (sorting_indices ui) (split_arr ui).

(** the named tuple as the sequence of its fields *)
Definition astuple (ui : UniqueIndices) : list (list Z) :=
  [unique ui; unique_cnt ui; sorting_indices ui; split_arr ui].

(** [a, b, c = values] *)
Definition unpack3 {A} (values : list A) : M (A * A * A) :=
  match values with
  | [a; b; c] => ret (a, b, c)
  | _ => raise UnpackError
  end.

(** ** The constructor *)

(** [DataSplitter.__init__] *)
Definition init (time_series_config : option time_series_config)
    (shuffle replace : bool) (g : rng) : error + DataSplitter :=
  let self :=
    {| _time_series_config := time_series_config; _shuffle := shuffle;
       _replace := replace; fit_data := None; _time_column := None;
       _remained_indices := None;
       _label_indices_list := None; _label_indices_list_in_use := None;
       label_statistics := None;
       _time_indices_list := None; _time_indices_list_in_use := None;
       _times_counts_cumsum := None; _times_counts_cumsum_in_use := None;
       _time_series_sorting_indices := None; random_state := g |} in
  match time_series_config with
  | None => inr self
  | Some cfg =>
      if replace then inl ReplaceTimeSeries
      else match cfg_id_column cfg, cfg_time_column cfg with
           | None, _ => inl MissingColumn
           | _, None => inl MissingColumn
           | Some _, Some _ => inr self
           end
  end.

(** [DataSplitter.is_time_series] *)
Definition is_time_series (s : DataSplitter) : bool :=
  match _time_series_config s with Some _ => true | None => false end.

(** [DataSplitter.remained_indices]: the pool, reversed, as a copy *)
Definition remained_indices : M (list Z) :=
  do s <- get; do pool <- some (_remained_indices s); ret (rev pool).

(** ** reset methods *)

Definition _reset_reg : M unit :=
  do s <- get;
  do d <- attr (fit_data s);
  let n_data := len (_x d) in
  do pool <- (if negb (_shuffle s) then ret (arange n_data)
              else np_shuffle (arange n_data));
  modify (set_remained_indices (Some pool)).

(** The two attributes [_reset_indices_list] is called for. *)
Inductive attribute := label_indices_list | time_indices_list.

Definition getattr (a : attribute) (s : DataSplitter) : option (list (list Z)) :=
  match a with
  | label_indices_list => _label_indices_list s
  | time_indices_list => _time_indices_list s
  end.
Definition setattr (a : attribute) (v : option (list (list Z))) : M unit :=
  match a with
  | label_indices_list => modify (set_label_indices_list v)
  | time_indices_list => modify (set_time_indices_list v)
  end.
Definition setattr_in_use (a : attribute) (v : option (list (list Z))) : M unit :=
  match a with
  | label_indices_list => modify (set_label_indices_list_in_use v)
  | time_indices_list => modify (set_time_indices_list_in_use v)
  end.

(** The shuffle is in place: it reorders the arrays of the attribute
    itself, of which the lists in use are then copies. *)
Definition _reset_indices_list (a : attribute) : M unit :=
  do s <- get;
  do self_attr <- some (getattr a s);
  do self_attr <- (if _shuffle s then np_shuffle_each self_attr
                   else ret self_attr);
  do_ setattr a (Some self_attr);
  do_ setattr_in_use a (Some self_attr);
  do pool <- hstack self_attr;
  modify (set_remained_indices (Some pool)).

Definition _reset_clf : M unit :=
  do s <- get;
  do_ (match _label_indices_list s with
       | Some _ => ret tt
       | None =>
           do d <- attr (fit_data s);
           let flattened_y := _y d in
           let unique_indices := get_unique_indices flattened_y in
           let unique_labels := unique unique_indices in
           let counts := unique_cnt unique_indices in
           do_ modify (set_label_indices_list
                         (Some (split_indices unique_indices)));
           let n_samples := len flattened_y in
           do_ modify (set_label_statistics
                         (Some {| _n_samples := n_samples;
                                  _label_ratios :=
                                    map (fun c => Float.div (Float.of_int c)
                                                    (Float.of_int n_samples))
                                        counts;
                                  _n_unique_labels := len unique_labels |}));
           if len unique_labels =? 1 then raise SingleLabel else ret tt
       end);
  _reset_indices_list label_indices_list.

(** The helper's tuple has four fields and the method unpacks it into
    three names, so the first branch always ends at the unpacking, before
    anything is assigned. What follows it is written for the triple the
    method expects, its third item a flat array of positions. *)
Definition _reset_time_series : M unit :=
  do s <- get;
  do_ (match _time_indices_list s with
       | Some _ => ret tt
       | None =>
           do time_column <- attr (_time_column s);
           do time_column <- some time_column;
           do '(unique_times, times_counts, time_indices) <-
             unpack3 (map (@rev Z) (astuple (get_unique_indices time_column)));
           let time_indices_list := map (fun i => [i]) time_indices in
           do_ modify (set_time_indices_list (Some time_indices_list));
           let times_counts_cumsum := cumsum times_counts in
           do_ modify (set_times_counts_cumsum (Some times_counts_cumsum));
           do_ (match rev times_counts_cumsum with
                | [] => raise IndexError
                | last :: _ => assert (last =? len time_column)
                end);
           do sorting <- hstack (rev time_indices_list);
           modify (set_sorting_indices (Some sorting))
       end);
  do_ _reset_indices_list time_indices_list;
  do s <- get;
  do times_counts_cumsum <- attr (_times_counts_cumsum s);
  modify (set_times_counts_cumsum_in_use (Some times_counts_cumsum)).

(** ** split methods *)

(** [tgt_indices] is a slice of the pool, and a numpy slice is a view: it
    shares the pool's buffer. What the method returns is therefore read off
    the buffer as it stands when the method returns, after the in-place
    shuffle if there is one. Rebinding [_remained_indices] to a shorter
    slice leaves the buffer as it is. A float cannot bound a slice. *)
Definition _split_reg (n : pynum) : M (list Z) :=
  do s <- get;
  do pool <- some (_remained_indices s);
  match n with
  | PFloat _ => raise TypeError
  | PInt n =>
      let tgt_indices := fun buffer : list Z => slice_from buffer (- n) in
      let n := Z.min n (len pool - 1) in
      if _replace s then
        do buffer <- np_shuffle pool;
        do_ modify (set_remained_indices (Some buffer));
        ret (tgt_indices buffer)
      else if n >? 0 then
        do_ modify (set_remained_indices (Some (slice_to pool (- n))));
        ret (tgt_indices pool)
      else ret (tgt_indices pool)
  end.

(** [counts[chosen] -= sign]: every listed position, once. *)
Fixpoint sub_where (k : Z) (chosen : list Z) (sign : Z) (counts : list Z) : list Z :=
  match counts with
  | [] => []
  | c :: counts' =>
      (if mem k chosen then c - sign else c)
        :: sub_where (k + 1) chosen sign counts'
  end.

(** [int(np.ceil(e / c))] for counts [e] and [c], [c] positive: the
    quotient of two counts is far from where the rounding of the double
    quotient could cross an integer. *)
Definition ceil_div (e c : Z) : Z := - ((- e) / c).

(** [np.round(n * self._label_ratios)], floored at 1 *)
Definition rounded_counts (n : pynum) (ratios : list Q) : list Z :=
  map (fun r => Z.max 1 (round_half_even (Float.mul (to_float n) r))) ratios.

(** Lines 163 to 179 of [_split_clf]: the number of samples to draw for
    each label. With a float [n] the excess is a float: it cannot be
    subtracted in place from the integer counts, nor bound a slice. *)
Definition n_samples_per_label (n : pynum) : M (list Z) :=
  do s <- get;
  do stats <- attr (label_statistics s);
  let n_samples_per_label := rounded_counts n (_label_ratios stats) in
  let n_samples_exceeded := sub_num (PInt (sum n_samples_per_label)) n in
  do n_samples_per_label <-
    (if negb (eq_num n_samples_exceeded (PInt 0)) then
       do_ (if _n_unique_labels stats =? len n_samples_per_label then ret tt
            else raise IndexError);
       do chosen_indices <-
         np_shuffle (List.filter (fun i => negb (nth (Z.to_nat i) n_samples_per_label 0 =? 1))
                                 (arange (_n_unique_labels stats)));
       let n_chosen_indices := len chosen_indices in
       do_ (if n_chosen_indices =? 0 then raise OverflowError else ret tt);
       match n_samples_exceeded with
       | PFloat _ => raise TypeError
       | PInt n_samples_exceeded =>
           let sign := Z.sgn n_samples_exceeded in
           let n_samples_exceeded := Z.abs n_samples_exceeded in
           let n_tile := ceil_div n_samples_exceeded n_chosen_indices in
           let n_samples_per_label :=
             Nat.iter (Z.to_nat (n_tile - 1)) (sub_where 0 chosen_indices sign)
                      n_samples_per_label in
           let n_proceeded := Z.of_nat (Z.to_nat (n_tile - 1)) * n_chosen_indices in
           ret (fold_left (fun counts idx => sub_where 0 [idx] sign counts)
                          (slice_to chosen_indices (n_samples_exceeded - n_proceeded))
                          n_samples_per_label)
       end
     else ret n_samples_per_label);
  do_ assert (eq_num (PInt (sum n_samples_per_label)) n);
  ret n_samples_per_label.

(** [np.sum(base >= 2)] after [base[tgt] += 1; base[remain] += 1]: the
    positions of [base] that both arrays address. An index outside
    [base] raises; a negative one counts from the end. *)
Definition count_overlap (n_samples : Z) (tgt remain : list Z) : M Z :=
  let wrap := fun i => if i <? 0 then i + n_samples else i in
  let inside := fun i => (0 <=? wrap i) && (wrap i <? n_samples) in
  if forallb inside tgt && forallb inside remain then
    ret (len (List.filter (fun i => mem i (map wrap tgt) && mem i (map wrap remain))
                          (arange n_samples)))
  else raise IndexError.

Definition _split_clf (n : pynum) : M (list Z) :=
  do s <- get;
  do stats <- attr (label_statistics s);
  if lt_num n (PInt (_n_unique_labels stats)) then raise InsufficientLabels else
  do n_samples_per_label <- n_samples_per_label n;
  do in_use <- some (_label_indices_list_in_use s);
  let per_label := combine in_use n_samples_per_label in
  let tgt_indices_list :=
    map (fun '(indices, k) => slice_from indices (- k)) per_label in
  let pop_indices_list :=
    map (fun '(indices, k) =>
           if k >=? len indices - 1 then []
           else range (len indices - k) (len indices)) per_label in
  let n_overlap :=
    sum (map (fun '(indices, k) => if k >=? len indices - 1 then k else 0)
             per_label) in
  do tgt_indices <- hstack tgt_indices_list;
  do_ (if _replace s then
         do in_use <- np_shuffle_each in_use;
         do_ modify (set_label_indices_list_in_use (Some in_use));
         do pool <- hstack in_use;
         modify (set_remained_indices (Some pool))
       else
         let in_use :=
           map (fun '(arr, pop_indices) => np_delete arr pop_indices)
               (combine in_use pop_indices_list) in
         do_ modify (set_label_indices_list_in_use (Some in_use));
         do remain_indices <- hstack in_use;
         do overlap <- count_overlap (_n_samples stats) tgt_indices remain_indices;
         do_ assert (overlap <=? n_overlap);
         modify (set_remained_indices (Some remain_indices)));
  ret tgt_indices.

(** [lst[0]] *)
Definition head_of {A} (l : list A) : M A :=
  match l with [] => raise IndexError | a :: _ => ret a end.
(** [arr[i]] for a position [i] the caller knows to be at least 0 *)
Definition item (l : list Z) (i : nat) : M Z :=
  match nth_error l i with Some v => ret v | None => raise IndexError end.
(** a count used where an integer is required: a slice bound, or an
    in-place subtraction from integer counts *)
Definition index_of (n : pynum) : M Z :=
  match n with PInt k => ret k | PFloat _ => raise TypeError end.

Definition _split_time_series (n : pynum) : M (list Z) :=
  do s <- get;
  do cumsum_in_use <- attr (_times_counts_cumsum_in_use s);
  do_ (match cumsum_in_use with [] => raise EmptyInput | _ => ret tt end);
  let split_arg := argmax (map (fun c => le_num n (PInt c)) cumsum_in_use) in
  do at_split <- item cumsum_in_use split_arg;
  let n_left := sub_num (PInt at_split) n in
  do in_use <- some (_time_indices_list_in_use s);
  do '(n_res, selected_indices) <-
    (if (split_arg =? 0)%nat then ret (n, [])
     else
       do before <- item cumsum_in_use (split_arg - 1);
       do_ modify (set_time_indices_list_in_use (Some (skipn split_arg in_use)));
       do_ modify (set_times_counts_cumsum_in_use
                     (Some (skipn split_arg cumsum_in_use)));
       ret (sub_num n (PInt before), firstn split_arg in_use));
  do s <- get;
  do in_use <- some (_time_indices_list_in_use s);
  do cumsum_in_use <- attr (_times_counts_cumsum_in_use s);
  do first <- head_of in_use;
  do n_res <- index_of n_res;
  let selected_indices := selected_indices ++ [slice_to first n_res] in
  do_ (if lt_num (PInt 0) n_left then
         modify (set_time_indices_list_in_use
                   (Some (slice_from first n_res :: tl in_use)))
       else
         do_ modify (set_time_indices_list_in_use (Some (tl in_use)));
         modify (set_times_counts_cumsum_in_use (Some (tl cumsum_in_use))));
  do tgt_indices <- hstack selected_indices;
  do s <- get;
  do in_use <- some (_time_indices_list_in_use s);
  do pool <- hstack in_use;
  do_ modify (set_remained_indices (Some pool));
  do cumsum_in_use <- attr (_times_counts_cumsum_in_use s);
  do n <- index_of n;
  do_ modify (set_times_counts_cumsum_in_use
                (Some (map (fun c => c - n) cumsum_in_use)));
  ret (rev tgt_indices).

(** ** The public methods *)

(** [DataSplitter.reset] *)
Definition reset : M unit :=
  do s <- get;
  do time_column <- attr (_time_column s);
  match time_column with
  | Some _ => _reset_time_series
  | None =>
      do d <- attr (fit_data s);
      if _is_regression d then _reset_reg else _reset_clf
  end.

(** [DataSplitter.fit] *)
Definition fit (dataset : TabularDataset) : M unit :=
  do s <- get;
  let is_regression := is_REGRESSION (task_type dataset) in
  let fitted := fun xs =>
    Some {| _is_regression := is_regression; _x := xs; _y := y dataset |} in
  do_ modify (set_fit_data (fitted (x dataset)));
  do_ (match _time_series_config s with
       | None => modify (set_time_column (Some None))
       | Some cfg =>
           do id_setting <- some (cfg_id_column cfg);
           do time_setting <- some (cfg_time_column cfg);
           match id_setting, time_setting with
           | ColumnValues _, ColumnValues times =>
               modify (set_time_column (Some (Some times)))
           | ColumnValues _, ColumnPosition _ => raise MixedColumns
           | ColumnPosition _, ColumnValues _ => raise MixedColumns
           | ColumnPosition id_column, ColumnPosition time_column =>
               let time_of_row := fun row : list Z =>
                 slice row time_column (time_column + 1) in
               let rest_of_row := fun row : list Z =>
                 if id_column <? time_column then
                   slice_to row id_column
                     ++ slice row (id_column + 1) time_column
                     ++ slice_from row (time_column + 1)
                 else
                   slice_to row time_column
                     ++ slice row (time_column + 1) id_column
                     ++ slice_from row (id_column + 1) in
               do_ modify (set_fit_data (fitted (map rest_of_row (x dataset))));
               modify (set_time_column
                         (Some (Some (concat (map time_of_row (x dataset))))))
           end
       end);
  reset.

(** [DataSplitter.split] *)
Definition split (n : pynum) : M SplitResult :=
  do s <- get;
  do d <- attr (fit_data s);
  if _is_regression d && negb (bool_decide (is_Some (_remained_indices s)))
  then raise NotReset else
  if negb (_is_regression d)
     && negb (bool_decide (is_Some (_label_indices_list_in_use s)))
  then raise NotReset else
  do pool <- some (_remained_indices s);
  if le_num (PInt (len pool)) n then
    do remained <- remained_indices;
    ret {| dataset_rows := remained;
           corresponding_indices := pool;
           remaining_indices := [] |}
  else
  let n := if lt_num n (PInt 1) then PInt (int_mul (len (_x d)) n) else n in
  do tgt_indices <-
    (if is_time_series s then _split_time_series n
     else if _is_regression d then _split_reg n else _split_clf n);
  do_ assert (eq_num (PInt (len tgt_indices)) n);
  do s <- get;
  do pool <- some (_remained_indices s);
  ret {| dataset_rows := tgt_indices;
         corresponding_indices := tgt_indices;
         remaining_indices := pool |}.

(** [list(map(self.split, n_list))] *)
Fixpoint split_each (n_list : list pynum) : M (list SplitResult) :=
  match n_list with
  | [] => ret []
  | n :: n_list' =>
      do r <- split n; do rs <- split_each n_list'; ret (r :: rs)
  end.

(** [DataSplitter.split_multiple] *)
Definition split_multiple (n_list : list pynum) (return_remained : bool)
    : M (list SplitResult) :=
  do s <- get;
  do d <- attr (fit_data s);
  let n_total := len (_x d) in
  do n_list <-
    (if negb (forallb (fun n_ => le_num n_ (PInt 1)) n_list) then
       if existsb (fun n_ => lt_num n_ (PInt 1)) n_list then raise MixedList
       else if return_remained then
         ret (n_list ++ [sub_num (PInt n_total) (sum_num n_list)])
       else ret n_list
     else
       let ratio_sum := sum_num n_list in
       if lt_num (PInt 1) ratio_sum then raise SumAboveOne
       else if return_remained && eq_num ratio_sum (PInt 1) then raise SumIsOne
       else
         let n_selected := int_mul n_total ratio_sum in
         let front := map (int_mul n_total) (removelast n_list) in
         do_ (match n_list with [] => raise IndexError | _ => ret tt end);
         let n_list := map PInt (front ++ [n_selected - sum front]) in
         if lt_num ratio_sum (PInt 1) then
           ret (n_list ++ [PInt (n_total - n_selected)])
         else ret n_list);
  split_each n_list.

End Splitter.

(* ===================================================================== *)
(** * wrapper.py: how TabularData uses the splitter *)
(* ===================================================================== *)

Module Wrapper.
Import Py Rand Splitter.

(** [TabularData.split], up to the index sets it cuts its three snapshots
    with: a splitter without shuffling, fitted on the processed dataset,
    asked once. The random source [g] is the process-wide one. *)
Definition split (dataset : TabularDataset) (ratio : pynum) (g : rng)
    : error + (list Z * list Z) :=
  match Splitter.init None false false g with
  | inl e => inl e
  | inr splitter =>
      match (do_ fit dataset; Splitter.split ratio) splitter with
      | (inl e, _) => inl e
      | (inr split, _) =>
          inr (corresponding_indices split, remaining_indices split)
      end
  end.

End Wrapper.

(* ===================================================================== *)
(** * States of the splitter *)
(* ===================================================================== *)

Module States.
Import Py Rand Splitter.

(** [m] keeps a property of the splitter, whether it returns or raises. *)
Definition preserves {A} (P : DataSplitter -> Prop) (m : M A) : Prop :=
  forall s, P s -> P (m s).2.

(** [m] never ends with the exception [e]. *)
Definition never_raises {A} (e : error) (m : M A) : Prop :=
  forall s, (m s).1 <> inl e.

(** A time-series splitter whose task is not regression, as [fit] leaves
    it whether it returns or raises: no per-label list in use, and a time
    column that is unset or an array, never [None]. *)
Definition time_series_without_labels (s : DataSplitter) : Prop :=
  (exists d, fit_data s = Some d /\ _is_regression d = false) /\
  _label_indices_list_in_use s = None /\
  _time_column s <> Some None.

(** A time-series splitter as [fit] leaves it, whatever the task: no list
    of time groups, no pool, and a time column that is unset or an
    array. *)
Definition time_series_unfit (s : DataSplitter) : Prop :=
  is_Some (fit_data s) /\
  _time_indices_list s = None /\
  _remained_indices s = None /\
  _label_indices_list_in_use s = None /\
  _time_column s <> Some None.

(** The count [split] works with for the request [n]: a request below 1
    is a fraction of the rows. *)
Definition effective_count (d : FitData) (n : pynum) : pynum :=
  if lt_num n (PInt 1) then PInt (int_mul (len (_x d)) n) else n.

(** The request [n] gets past the readiness checks of [split] and past
    the test for a request that covers the whole pool. *)
Definition below_pool (s : DataSplitter) (d : FitData) (pool : list Z)
    (n : pynum) : Prop :=
  fit_data s = Some d /\
  (if _is_regression d then True else is_Some (_label_indices_list_in_use s)) /\
  _remained_indices s = Some pool /\
  le_num (PInt (len pool)) n = false.

(** What [split] does from there on, with the count at hand. *)
Definition split_count (d : FitData) (n : pynum) : M SplitResult :=
  do s <- get;
  do tgt_indices <-
    (if is_time_series s then _split_time_series n
     else if _is_regression d then _split_reg n else _split_clf n);
  do_ assert (eq_num (PInt (len tgt_indices)) n);
  do s <- get;
  do pool <- some (_remained_indices s);
  ret {| dataset_rows := tgt_indices;
         corresponding_indices := tgt_indices;
         remaining_indices := pool |}.

(** The last [n] entries of an array, and the array without them. *)
Definition last_n (n : Z) (l : list Z) : list Z :=
  skipn (length l - Z.to_nat n) l.
Definition without_last_n (n : Z) (l : list Z) : list Z :=
  firstn (length l - Z.to_nat n) l.


(** Counts lowered position by position: the entry at position [k + i]
    loses [sign] times [h (k + i)]. *)
Fixpoint lowered (h : Z -> Z) (sign k : Z) (counts : list Z) : list Z :=
  match counts with
  | [] => []
  | c :: counts' => (c - sign * h k) :: lowered h sign (k + 1) counts'
  end.

Fixpoint total (h : Z -> Z) (k : Z) (m : nat) : Z :=
  match m with
  | O => 0
  | S m' => h k + total h (k + 1) m'
  end.

(** Every attribute but the pool and the random source. *)
Definition same_but_pool (s0 s : DataSplitter) : Prop :=
  _time_series_config s = _time_series_config s0 /\
  _shuffle s = _shuffle s0 /\
  _replace s = _replace s0 /\
  fit_data s = fit_data s0 /\
  _time_column s = _time_column s0 /\
  _label_indices_list s = _label_indices_list s0 /\
  _label_indices_list_in_use s = _label_indices_list_in_use s0 /\
  label_statistics s = label_statistics s0 /\
  _time_indices_list s = _time_indices_list s0 /\
  _time_indices_list_in_use s = _time_indices_list_in_use s0 /\
  _times_counts_cumsum s = _times_counts_cumsum s0 /\
  _times_counts_cumsum_in_use s = _times_counts_cumsum_in_use s0 /\
  _time_series_sorting_indices s = _time_series_sorting_indices s0.

(** The attributes a split never assigns. *)
Definition same_setup (s0 s : DataSplitter) : Prop :=
  _time_series_config s = _time_series_config s0 /\
  _shuffle s = _shuffle s0 /\
  _replace s = _replace s0 /\
  fit_data s = fit_data s0 /\
  _time_column s = _time_column s0 /\
  _label_indices_list s = _label_indices_list s0 /\
  label_statistics s = label_statistics s0 /\
  _time_indices_list s = _time_indices_list s0 /\
  _times_counts_cumsum s = _times_counts_cumsum s0 /\
  _time_series_sorting_indices s = _time_series_sorting_indices s0.

(** A regression splitter after [reset], with its pool. *)
Definition regression_ready (s : DataSplitter) (d : FitData)
    (pool : list Z) : Prop :=
  is_time_series s = false /\
  fit_data s = Some d /\
  _is_regression d = true /\
  _remained_indices s = Some pool.

(** A classification splitter after [reset], with its per-label pools. *)
Definition classification_ready (s : DataSplitter) (d : FitData)
    (stats : LabelStatistics) (in_use : list (list Z)) (pool : list Z) : Prop :=
  is_time_series s = false /\
  fit_data s = Some d /\
  _is_regression d = false /\
  label_statistics s = Some stats /\
  _label_indices_list_in_use s = Some in_use /\
  _remained_indices s = Some pool.

End States.

(* ===================================================================== *)
(** * Sample processors and datasets *)
(* ===================================================================== *)

Module Samples.
Import Py Rand Processors Splitter.

(** A subclass that rescales its argument in place, and three processors
    of dimensions 1 to 1, 1 to 3 and 2 to 2 placed one after the other. *)
Definition in_place_class (d_in d_out : Z) : Subclass :=
  {| cls_input_dim := d_in;
     cls_output_dim := d_out;
     cls_process := fun l h => (l, alter (map (map (Z.mul 2))) l h);
     cls_recover := fun l h => (l, alter (map (map (fun v => v / 2))) l h) |}.

Definition three_processors : list Processor :=
  place [] [(in_place_class 1 1, false); (in_place_class 1 3, false);
            (in_place_class 2 2, false)].

(** A store with one array of three rows. *)
Definition one_array : store := {[ 0%nat := [[1]; [2]; [3]] ]}.

(** A feature matrix of [n] rows; the splitter only counts them. *)
Definition rows (n : nat) : list (list Z) := repeat [] n.

(** Splitters as the constructor makes them (without a time-series
    configuration the constructor cannot fail). *)
Definition new_splitter (shuffle replace : bool) (g : rng) : DataSplitter :=
  {| _time_series_config := None; _shuffle := shuffle;
     _replace := replace; fit_data := None; _time_column := None;
     _remained_indices := None;
     _label_indices_list := None; _label_indices_list_in_use := None;
     label_statistics := None;
     _time_indices_list := None; _time_indices_list_in_use := None;
     _times_counts_cumsum := None; _times_counts_cumsum_in_use := None;
     _time_series_sorting_indices := None; random_state := g |}.

(** The same with a time-series configuration that gives the time column
    by its values. *)
Definition times_config (times : list Z) : time_series_config :=
  {| cfg_id_column := Some (ColumnValues (map (fun _ => 0) times));
     cfg_time_column := Some (ColumnValues times) |}.

Definition new_time_series_splitter (times : list Z) (shuffle : bool)
    (g : rng) : DataSplitter :=
  {| _time_series_config := Some (times_config times); _shuffle := shuffle;
     _replace := false; fit_data := None; _time_column := None;
     _remained_indices := None;
     _label_indices_list := None; _label_indices_list_in_use := None;
     label_statistics := None;
     _time_indices_list := None; _time_indices_list_in_use := None;
     _times_counts_cumsum := None; _times_counts_cumsum_in_use := None;
     _time_series_sorting_indices := None; random_state := g |}.

(** Five rows for a regression task; ten rows with labels in the ratio
    0.7 to 0.3; five rows observed at the times 0 to 4. *)
Definition regression_5 : TabularDataset :=
  {| x := rows 5; y := [10; 20; 30; 40; 50]; task_type := REGRESSION |}.

Definition labels_7_3 : TabularDataset :=
  {| x := rows 10; y := [0; 0; 0; 0; 0; 0; 0; 1; 1; 1];
     task_type := CLASSIFICATION |}.

Definition classification_5 : TabularDataset :=
  {| x := rows 5; y := [0; 1; 0; 1; 0]; task_type := CLASSIFICATION |}.

Definition times_0_4 : list Z := [0; 1; 2; 3; 4].

(** The splitter after [fit]. *)
Definition fitted (dataset : TabularDataset) (s : DataSplitter) : DataSplitter :=
  (fit dataset s).2.

(** Regression splitters on five rows, fitted without shuffling: the pool
    is 0 to 4. One draws without replacement, one with. *)
Definition plain_regression : DataSplitter :=
  fitted regression_5 (new_splitter false false []).

(** A classification splitter on the ten rows with labels in the ratio
    0.7 to 0.3, fitted without shuffling. *)
Definition stratified_7_3 : DataSplitter :=
  fitted labels_7_3 (new_splitter false false []).

(** Six rows with three labels in equal shares. *)
Definition labels_thirds : TabularDataset :=
  {| x := rows 6; y := [0; 1; 2; 0; 1; 2]; task_type := CLASSIFICATION |}.
Definition stratified_thirds : DataSplitter :=
  fitted labels_thirds (new_splitter false false []).

(** Regression rows by the hundred and by the ten, for fractions whose
    product with the row count is not the real product. *)
Definition regression_rows (n : nat) : TabularDataset :=
  {| x := rows n; y := repeat 0 n; task_type := REGRESSION |}.



End Samples.
(* ===================================================================== *)
(** * Properties of the primitives *)
(* ===================================================================== *)

Section PyFacts.
Import Py.

Lemma len_nonneg {A} (l : list A) : 0 <= len l.
Proof. unfold len. lia. Qed.

Lemma len_app {A} (l1 l2 : list A) : len (l1 ++ l2) = len l1 + len l2.
Proof. unfold len. rewrite length_app. lia. Qed.

Lemma len_rev {A} (l : list A) : len (rev l) = len l.
Proof. unfold len. now rewrite length_rev. Qed.

Lemma range_length (a b : Z) : length (range a b) = Z.to_nat (b - a).
Proof. unfold range. now rewrite length_map, length_seq. Qed.

Lemma range_shift (s d : Z) :
  map (fun i => s + i) (range 0 d) = range s (s + d).
Proof.
  unfold range. rewrite map_map.
  replace (s + d - s) with (d - 0) by lia.
  apply map_ext. intros k. lia.
Qed.

Lemma in_range (a b v : Z) : In v (range a b) <-> a <= v < b.
Proof.
  unfold range. rewrite in_map_iff. split.
  - intros (k & <- & Hk). apply in_seq in Hk. lia.
  - intros Hv. exists (Z.to_nat (v - a)). split; [lia|].
    apply in_seq. lia.
Qed.

Lemma sum_app (l1 l2 : list Z) : sum (l1 ++ l2) = sum l1 + sum l2.
Proof. induction l1 as [|a l1 IH]; simpl; [reflexivity|]. rewrite IH. lia. Qed.



(** Slices with a count between 0 and the length. *)
Lemma slice_from_neg {A} (l : list A) (n : Z) :
  0 < n <= len l -> slice_from l (- n) = skipn (length l - Z.to_nat n) l.
Proof.
  intros Hn. unfold slice_from, bound, len in *.
  destruct (Z.ltb_spec (- n) 0); [|lia].
  f_equal. lia.
Qed.

Lemma slice_to_neg {A} (l : list A) (n : Z) :
  0 < n <= len l -> slice_to l (- n) = firstn (length l - Z.to_nat n) l.
Proof.
  intros Hn. unfold slice_to, bound, len in *.
  destruct (Z.ltb_spec (- n) 0); [|lia].
  f_equal. lia.
Qed.


Lemma slice_from_pos {A} (l : list A) (n : Z) :
  0 <= n -> slice_from l n = skipn (Z.to_nat n) l.
Proof.
  intros Hn. unfold slice_from, bound, len.
  destruct (Z.ltb_spec n 0); [lia|].
  destruct (Z.le_gt_cases n (Z.of_nat (length l))).
  - now rewrite Z.min_l.
  - rewrite Z.min_r by lia. rewrite Nat2Z.id.
    rewrite !skipn_all2; [reflexivity|lia|lia].
Qed.

Lemma slice_neg_split {A} (l : list A) (n : Z) :
  0 < n <= len l -> slice_to l (- n) ++ slice_from l (- n) = l.
Proof.
  intros Hn. rewrite slice_from_neg, slice_to_neg by assumption.
  apply firstn_skipn.
Qed.

Lemma slice_from_neg_len {A} (l : list A) (n : Z) :
  0 < n <= len l -> len (slice_from l (- n)) = n.
Proof.
  intros Hn. rewrite slice_from_neg by assumption.
  unfold len in *. rewrite length_skipn. lia.
Qed.

End PyFacts.

Section RandFacts.
Import Rand.

Lemma insert_at_Permutation {A} (k : nat) (a : A) (l : list A) :
  Permutation (a :: l) (insert_at k a l).
Proof.
  unfold insert_at. rewrite <- (firstn_skipn k l) at 1.
  apply Permutation_middle.
Qed.

Lemma shuffle_Permutation {A} (g : rng) (l : list A) :
  Permutation l (shuffle g l).1.
Proof.
  induction l as [|a l IH]; simpl; [constructor|].
  destruct (shuffle g l) as [r g'] eqn:E. simpl in IH.
  destruct g' as [|k g'']; simpl.
  - now constructor.
  - etransitivity; [|apply insert_at_Permutation]. now constructor.
Qed.


Lemma shuffle_each_Forall2 {A} (g : rng) (ls : list (list A)) :
  Forall2 (@Permutation A) ls (shuffle_each g ls).1.
Proof.
  revert g. induction ls as [|l ls IH]; intros g; simpl; [constructor|].
  destruct (shuffle g l) as [l1 g1] eqn:E1.
  destruct (shuffle_each g1 ls) as [ls1 g2] eqn:E2. simpl.
  constructor.
  - pose proof (shuffle_Permutation g l) as H. now rewrite E1 in H.
  - specialize (IH g1). now rewrite E2 in IH.
Qed.

End RandFacts.

(* ===================================================================== *)
(** * Properties of the Processor base class *)
(* ===================================================================== *)

Section ProcessorFacts.
Import Py Processors Samples.

Lemma place_app (prev : list Processor) (classes : list (Subclass * bool)) :
  exists more, place prev classes = prev ++ more.
Proof.
  revert prev. induction classes as [|[c b] classes IH]; intros prev; simpl.
  - exists []. now rewrite app_nil_r.
  - destruct (IH (prev ++ [init c prev b])) as [more ->].
    exists (init c prev b :: more). now rewrite <- app_assoc.
Qed.

(** The orchestrator's loop builds chains in the sense of [chained]. *)
Lemma place_chained (prev : list Processor) (classes : list (Subclass * bool)) :
  chained prev -> chained (place prev classes).
Proof.
  revert prev. induction classes as [|[c b] classes IH]; intros prev Hprev; simpl.
  - assumption.
  - apply IH. intros i p Hi.
    destruct (Nat.lt_ge_cases i (length prev)) as [Hlt|Hge].
    + rewrite nth_error_app1 in Hi by assumption.
      destruct (Hprev i p Hi) as (c' & b' & ->).
      exists c', b'. rewrite firstn_app.
      replace (i - length prev)%nat with 0%nat by lia.
      simpl. now rewrite app_nil_r.
    + rewrite nth_error_app2 in Hi by assumption.
      destruct (i - length prev)%nat as [|k] eqn:Ek; simpl in Hi.
      * injection Hi as <-. exists c, b.
        replace i with (length prev) by lia.
        rewrite firstn_app, firstn_all, Nat.sub_diag. simpl.
        now rewrite app_nil_r.
      * now destruct k.
Qed.

(** C2. In a chain where every processor was constructed with the ordered
    list of the processors before it, the input indices of each processor
    are the contiguous range that starts at the sum of the input
    dimensions of the processors before it, and its output indices are the
    contiguous range that starts at the sum of their output dimensions. *)
Theorem chain_offsets (ps : list Processor) (i : nat) (p : Processor) :
  chained ps ->
  nth_error ps i = Some p ->
  let S := sum (map input_dim (firstn i ps)) in
  let T := sum (map output_dim (firstn i ps)) in
  input_indices p = range S (S + input_dim p) /\
  output_indices p = range T (T + output_dim p).
Proof.
  intros Hch Hi S T. destruct (Hch i p Hi) as (c & b & ->).
  split.
  - unfold input_indices, init, input_dim at 2. simpl. apply range_shift.
  - reflexivity.
Qed.

Lemma chain_offsets_witness :
  exists p, nth_error three_processors 2 = Some p /\
            input_indices p = [2; 3] /\ output_indices p = [4; 5].
Proof.
  destruct (nth_error three_processors 2) as [p|] eqn:E; [|discriminate E].
  exists p. split; [reflexivity|].
  assert (Hch : chained three_processors).
  { apply place_chained. intros i q Hq. now destruct i. }
  destruct (chain_offsets three_processors 2 p Hch E) as [Hin Hout].
  split.
  - rewrite Hin. injection E as <-. reflexivity.
  - rewrite Hout. injection E as <-. reflexivity.
Defined.

Lemma copy_is_fresh (columns : loc) (h : store) (a : ndarray) :
  h !! columns = Some a ->
  copy columns h = (fresh (dom h), <[fresh (dom h) := a]> h) /\
  fresh (dom h) <> columns /\
  h !! fresh (dom h) = None.
Proof.
  intros Ha. unfold copy. rewrite Ha. split; [reflexivity|].
  assert (Hnot : fresh (dom h) ∉ dom h) by apply is_fresh.
  split.
  - intros E. apply Hnot. rewrite E. apply elem_of_dom. eauto.
  - apply not_elem_of_dom. exact Hnot.
Qed.

(** C8. [process] on a processor constructed with [inplace=False], and
    [recover] called with [inplace=False] on any processor, work on a
    private copy: the abstract method receives a reference that was not in
    use before the call and that holds the contents of the caller's array,
    and the caller's array holds the same contents after the call as
    before it. The abstract methods are assumed to write only through the
    reference they receive. *)
Theorem process_recover_on_copy (p : Processor) (columns : loc) (h : store)
    (a : ndarray) :
  writes_only_argument (cls_process (cls p)) ->
  writes_only_argument (cls_recover (cls p)) ->
  h !! columns = Some a ->
  let private := fresh (dom h) in
  private <> columns /\
  h !! private = None /\
  (_inplace p = false ->
   process p columns h = cls_process (cls p) private (<[private := a]> h) /\
   (process p columns h).2 !! columns = Some a) /\
  recover p columns false h
    = cls_recover (cls p) private (<[private := a]> h) /\
  (recover p columns false h).2 !! columns = Some a.
Proof.
  intros Hp Hr Ha private.
  destruct (copy_is_fresh columns h a Ha) as (Hcopy & Hne & Hnone).
  fold private in Hcopy, Hne, Hnone.
  assert (Hkept : (<[private := a]> h : store) !! columns = Some a).
  { rewrite lookup_insert_ne by exact Hne. exact Ha. }
  split; [exact Hne|]. split; [exact Hnone|]. split; [|split].
  - intros Hin. unfold process. rewrite Hin. cbn [negb]. rewrite Hcopy.
    split; [reflexivity|].
    rewrite (Hp private columns _ (not_eq_sym Hne)); [exact Hkept|eauto].
  - unfold recover. cbn [negb]. rewrite Hcopy. reflexivity.
  - unfold recover. cbn [negb]. rewrite Hcopy.
    rewrite (Hr private columns _ (not_eq_sym Hne)); [exact Hkept|eauto].
Qed.

Lemma in_place_class_writes (d_in d_out : Z) :
  writes_only_argument (cls_process (in_place_class d_in d_out)) /\
  writes_only_argument (cls_recover (in_place_class d_in d_out)).
Proof.
  split; intros l l' h Hne _; simpl; now rewrite lookup_alter_ne.
Qed.

Lemma process_recover_on_copy_witness :
  let p := init (in_place_class 1 1) [] false in
  let q := init (in_place_class 1 1) [] true in
  (process p 0%nat one_array).2 !! 0%nat = Some [[1]; [2]; [3]] /\
  (process p 0%nat one_array).2 !! 1%nat = Some [[2]; [4]; [6]] /\
  (recover q 0%nat false one_array).2 !! 0%nat = Some [[1]; [2]; [3]].
Proof.
  intros p q.
  destruct (process_recover_on_copy p 0%nat one_array [[1]; [2]; [3]]
              (proj1 (in_place_class_writes 1 1))
              (proj2 (in_place_class_writes 1 1)) eq_refl)
    as (_ & _ & Hprocess & _ & _).
  destruct (process_recover_on_copy q 0%nat one_array [[1]; [2]; [3]]
              (proj1 (in_place_class_writes 1 1))
              (proj2 (in_place_class_writes 1 1)) eq_refl)
    as (_ & _ & _ & _ & Hrecover).
  destruct (Hprocess eq_refl) as [Hrun Hkept].
  split; [exact Hkept|]. split; [|exact Hrecover].
  rewrite Hrun. reflexivity.
Defined.

(** With [inplace=True] the caller's array is the one rewritten. *)
Example process_in_place :
  (process (init (in_place_class 1 1) [] true) 0%nat one_array).2 !! 0%nat
  = Some [[2]; [4]; [6]].
Proof. vm_compute. reflexivity. Qed.

End ProcessorFacts.
(* ===================================================================== *)
(** * Properties of the DataSplitter *)
(* ===================================================================== *)

Section MonadFacts.
Import Splitter States.

Lemma preserves_ret {A} P (a : A) : preserves P (ret a).
Proof. intros s H. exact H. Qed.

Lemma preserves_raise {A} P e : preserves P (@raise A e).
Proof. intros s H. exact H. Qed.

Lemma preserves_get P : preserves P get.
Proof. intros s H. exact H. Qed.

Lemma preserves_bind {A B} P (m : M A) (f : A -> M B) :
  preserves P m -> (forall a, preserves P (f a)) -> preserves P (bind m f).
Proof.
  intros Hm Hf s H. unfold bind. specialize (Hm s H).
  destruct (m s) as [[e|a] s']; simpl in *; [assumption|].
  now apply Hf.
Qed.

Lemma preserves_modify P f :
  (forall s, P s -> P (f s)) -> preserves P (modify f).
Proof. intros Hf s H. now apply Hf. Qed.

Lemma preserves_assert P b : preserves P (assert b).
Proof. destruct b; intros s H; exact H. Qed.

Lemma preserves_some {A} P (o : option A) : preserves P (some o).
Proof. destruct o; intros s H; exact H. Qed.

Lemma preserves_attr {A} P (o : option A) : preserves P (attr o).
Proof. destruct o; intros s H; exact H. Qed.

Lemma preserves_unpack3 {A} P (l : list A) : preserves P (unpack3 l).
Proof.
  destruct l as [|a [|b [|c [|e l]]]]; intros s H; exact H.
Qed.

Lemma preserves_item P l i : preserves P (item l i).
Proof. unfold item. destruct (nth_error l i); intros s H; exact H. Qed.

Lemma preserves_head_of {A} P (l : list A) : preserves P (head_of l).
Proof. destruct l; intros s H; exact H. Qed.

Lemma preserves_index_of P n : preserves P (index_of n).
Proof. destruct n; intros s H; exact H. Qed.

Lemma bind_get {A} (f : DataSplitter -> M A) s : bind get f s = f s s.
Proof. reflexivity. Qed.

Lemma bind_unfold {A B} (m : M A) (f : A -> M B) s :
  bind m f s = match m s with
               | (inl e, s') => (inl e, s')
               | (inr a, s') => f a s'
               end.
Proof. reflexivity. Qed.

Lemma bind_attr {A B} (o : option A) (a : A) (f : A -> M B) s :
  o = Some a -> bind (attr o) f s = f a s.
Proof. intros ->. reflexivity. Qed.

Lemma bind_some {A B} (o : option A) (a : A) (f : A -> M B) s :
  o = Some a -> bind (some o) f s = f a s.
Proof. intros ->. reflexivity. Qed.

Lemma preserves_hstack P ls : preserves P (hstack ls).
Proof. destruct ls; intros s H; exact H. Qed.

Lemma preserves_np_shuffle P l :
  (forall g s, P s -> P (set_random_state g s)) -> preserves P (np_shuffle l).
Proof.
  intros Hg s H. unfold np_shuffle.
  destruct (Rand.shuffle (random_state s) l). now apply Hg.
Qed.

Lemma preserves_np_shuffle_each P ls :
  (forall g s, P s -> P (set_random_state g s)) ->
  preserves P (np_shuffle_each ls).
Proof.
  intros Hg s H. unfold np_shuffle_each.
  destruct (Rand.shuffle_each (random_state s) ls). now apply Hg.
Qed.

End MonadFacts.

(** Walks through a method, one statement at a time, for a property that
    every assignment met on the way keeps by computation. *)
Ltac preserve_step :=
  first
    [ apply preserves_ret
    | apply preserves_raise
    | apply preserves_get
    | apply preserves_assert
    | apply preserves_some
    | apply preserves_attr
    | apply preserves_unpack3
    | apply preserves_item
    | apply preserves_head_of
    | apply preserves_index_of
    | apply preserves_hstack
    | apply preserves_np_shuffle; intros ? ? ?; assumption
    | apply preserves_np_shuffle_each; intros ? ? ?; assumption
    | apply preserves_modify; intros ? ?; assumption
    | apply preserves_bind; [|intros ?]
    | match goal with
      | |- States.preserves _ (match ?d with _ => _ end) => destruct d
      end ].
Ltac preserve := repeat preserve_step.

Section SplitterFrame.
Import Py Splitter States.

Lemma _reset_time_series_keeps :
  preserves time_series_without_labels _reset_time_series.
Proof.
  unfold _reset_time_series, _reset_indices_list, setattr, setattr_in_use.
  preserve.
Qed.

Lemma reset_keeps :
  preserves time_series_without_labels reset.
Proof.
  intros s H. unfold reset. rewrite bind_get. cbv beta.
  destruct (_time_column s) as [[t|]|] eqn:E.
  - rewrite (bind_attr _ (Some t)) by reflexivity.
    now apply _reset_time_series_keeps.
  - destruct H as (_ & _ & Hne). congruence.
  - exact H.
Qed.

Lemma fit_time_series_without_labels cfg shuffle replace g ds s0 :
  init (Some cfg) shuffle replace g = inr s0 ->
  task_type ds <> REGRESSION ->
  time_series_without_labels (fit ds s0).2.
Proof.
  intros Hinit Htask.
  assert (Hreg : is_REGRESSION (task_type ds) = false)
    by (destruct (task_type ds); [congruence|reflexivity]).
  unfold init in Hinit.
  destruct replace; [discriminate|].
  destruct (cfg_id_column cfg) as [idc|] eqn:Eid; [|discriminate].
  destruct (cfg_time_column cfg) as [tc|] eqn:Etc; [|discriminate].
  injection Hinit as <-.
  unfold fit. rewrite bind_get. cbv beta.
  cbn [_time_series_config]. rewrite Hreg.
  rewrite bind_unfold. unfold modify at 1.
  rewrite bind_unfold, bind_unfold. rewrite Eid. unfold some at 1, ret at 1.
  rewrite bind_unfold. rewrite Etc. unfold some at 1, ret at 1.
  destruct idc as [ids|idp], tc as [times|tp].
  - unfold modify at 1. apply reset_keeps.
    split; [eexists; split; reflexivity|]. split; [reflexivity|discriminate].
  - unfold raise. cbn [snd].
    split; [eexists; split; reflexivity|]. split; [reflexivity|discriminate].
  - unfold raise. cbn [snd].
    split; [eexists; split; reflexivity|]. split; [reflexivity|discriminate].
  - rewrite bind_unfold. unfold modify at 1. unfold modify at 1.
    apply reset_keeps.
    split; [eexists; split; reflexivity|]. split; [reflexivity|discriminate].
Qed.

Lemma split_not_ready n s :
  time_series_without_labels s -> split n s = (inl NotReset, s).
Proof.
  intros ((d & Hd & Hreg) & Hlab & _). unfold split. rewrite bind_get.
  cbv beta. rewrite (bind_attr _ d) by exact Hd. cbv beta.
  rewrite Hreg, Hlab. reflexivity.
Qed.

(** C9. A splitter constructed with a time-series configuration and put
    through [fit] on a dataset whose task is not regression refuses every
    [split] with the not-reset error, whatever [fit] returned and however
    often [reset] has run since: the readiness check looks at the
    per-label lists, which the time-series path never builds. *)
Theorem time_series_classification_never_ready
    cfg shuffle replace g ds s0 (resets : nat) (n : pynum) :
  init (Some cfg) shuffle replace g = inr s0 ->
  task_type ds <> REGRESSION ->
  let s1 := (fit ds s0).2 in
  let s2 := Nat.iter resets (fun s => (reset s).2) s1 in
  split n s2 = (inl NotReset, s2).
Proof.
  intros Hinit Htask s1 s2. apply split_not_ready. subst s2 s1.
  induction resets as [|k IH]; simpl.
  - eapply fit_time_series_without_labels; eassumption.
  - now apply reset_keeps.
Qed.

End SplitterFrame.

Section SplitterWitnesses.
Import Py Splitter States Samples.

Lemma time_series_classification_never_ready_witness :
  let s := fitted classification_5 (new_time_series_splitter times_0_4 false []) in
  let s2 := Nat.iter 2 (fun s => (reset s).2) s in
  split (PInt 1) s2 = (inl NotReset, s2).
Proof.
  apply (time_series_classification_never_ready
           (times_config times_0_4) false false [] classification_5
           (new_time_series_splitter times_0_4 false [])).
  - reflexivity.
  - discriminate.
Defined.

End SplitterWitnesses.

Section Requests.
Import Py Splitter States.

Lemma le_num_int (a b : Z) : le_num (PInt a) (PInt b) = (a <=? b).
Proof.
  unfold le_num. simpl. apply eq_true_iff_eq.
  rewrite Qle_bool_iff, <- Zle_Qle, Z.leb_le. reflexivity.
Qed.

Lemma lt_num_int (a b : Z) : lt_num (PInt a) (PInt b) = (a <? b).
Proof.
  unfold lt_num. fold (le_num (PInt b) (PInt a)). rewrite le_num_int.
  rewrite Z.ltb_antisym. reflexivity.
Qed.

Lemma eq_num_int (a b : Z) : eq_num (PInt a) (PInt b) = (a =? b).
Proof.
  unfold eq_num. simpl. apply eq_true_iff_eq.
  rewrite Qeq_bool_iff, inject_Z_injective, Z.eqb_eq. reflexivity.
Qed.

Lemma lt_num_true a b : lt_num a b = true <-> (to_Q a < to_Q b)%Q.
Proof.
  unfold lt_num. rewrite negb_true_iff. split.
  - intros E. apply Qnot_le_lt. intros H. apply Qle_bool_iff in H. congruence.
  - intros H. destruct (Qle_bool (to_Q b) (to_Q a)) eqn:E; [|reflexivity].
    apply Qle_bool_iff in E. exfalso. exact (Qlt_not_le _ _ H E).
Qed.

Lemma lt_num_asym a b : lt_num a b = true -> lt_num b a = false.
Proof.
  intros H. apply lt_num_true in H.
  destruct (lt_num b a) eqn:E; [|reflexivity].
  apply lt_num_true in E. exfalso.
  exact (Qlt_irrefl _ (Qlt_trans _ _ _ H E)).
Qed.

Lemma lt_num_not_eq a b : lt_num a b = true -> eq_num a b = false.
Proof.
  intros H. apply lt_num_true in H. unfold eq_num.
  destruct (Qeq_bool (to_Q a) (to_Q b)) eqn:E; [|reflexivity].
  apply Qeq_bool_iff in E. rewrite E in H. exfalso. exact (Qlt_irrefl _ H).
Qed.

(** A request below 1 is below every pool that holds a row. *)
Lemma le_num_fraction (n : pynum) (k : Z) :
  lt_num n (PInt 1) = true -> 1 <= k -> le_num (PInt k) n = false.
Proof.
  intros Hn Hk. apply lt_num_true in Hn. unfold le_num.
  destruct (Qle_bool (to_Q (PInt k)) (to_Q n)) eqn:E; [|reflexivity].
  apply Qle_bool_iff in E. exfalso.
  apply (Qlt_not_le _ _ Hn). eapply Qle_trans; [|exact E].
  simpl. rewrite <- Zle_Qle. exact Hk.
Qed.

(** Past the checks, [split] is [split_count] on the converted count. *)
Lemma split_below_pool (s : DataSplitter) d (pool : list Z) (n : pynum) :
  below_pool s d pool n ->
  split n s = split_count d (effective_count d n) s.
Proof.
  intros (Hd & Hready & Hpool & Hbelow).
  unfold split, split_count, effective_count. rewrite !bind_get. cbv beta.
  rewrite (bind_attr _ d) by exact Hd. cbv beta.
  assert (Hchecks :
    (_is_regression d && negb (bool_decide (is_Some (_remained_indices s))) = false) /\
    (negb (_is_regression d)
       && negb (bool_decide (is_Some (_label_indices_list_in_use s))) = false)).
  { rewrite Hpool. destruct (_is_regression d).
    - split; reflexivity.
    - destruct Hready as [v ->]. split; reflexivity. }
  destruct Hchecks as [-> ->].
  rewrite (bind_some _ pool) by exact Hpool. cbv beta. rewrite Hbelow. reflexivity.
Qed.

(** A request with an integer count below the pool size is below the
    pool. *)
Lemma count_below_pool d (n : pynum) (k : Z) (pool : list Z) :
  effective_count d n = PInt k -> k < len pool -> 1 <= len pool ->
  le_num (PInt (len pool)) n = false.
Proof.
  unfold effective_count. intros Hk Hlt Hpool.
  destruct (lt_num n (PInt 1)) eqn:E.
  - now apply le_num_fraction.
  - subst n. rewrite le_num_int. now apply Z.leb_gt.
Qed.

End Requests.

Section Regression.
Import Py Rand Splitter States.

Lemma last_n_length n l : 0 <= n <= len l -> len (last_n n l) = n.
Proof. unfold last_n, len. rewrite length_skipn. lia. Qed.


Lemma regression_below_pool s d pool r n :
  regression_ready s d pool -> effective_count d r = PInt n ->
  1 <= n < len pool ->
  below_pool s d pool r.
Proof.
  intros (_ & Hd & Hreg & Hpool) Hreq Hn.
  split; [exact Hd|]. split; [now rewrite Hreg|]. split; [exact Hpool|].
  eapply count_below_pool; [exact Hreq|lia|lia].
Qed.

(** Without replacement: the tail is handed out and the pool is rebound
    to the prefix. *)
Lemma split_regression_without_replacement s d pool r n :
  regression_ready s d pool -> effective_count d r = PInt n ->
  1 <= n < len pool ->
  _replace s = false ->
  split r s =
    (inr {| dataset_rows := last_n n pool;
            corresponding_indices := last_n n pool;
            remaining_indices := without_last_n n pool |},
     set_remained_indices (Some (without_last_n n pool)) s).
Proof.
  intros Hready Hreq Hn Hrep.
  rewrite (split_below_pool s d pool r)
    by eauto using regression_below_pool.
  rewrite Hreq.
  destruct Hready as (Hts & Hd & Hreg & Hpool).
  unfold split_count. rewrite bind_get. cbv beta. rewrite Hts, Hreg.
  unfold _split_reg. rewrite bind_unfold, bind_get. cbv beta.
  rewrite (bind_some _ pool) by exact Hpool. cbv beta. rewrite Hrep.
  rewrite Z.min_l by lia.
  destruct (Z.gtb_spec n 0) as [_|]; [|lia].
  rewrite bind_unfold. unfold modify at 1. unfold ret at 1.
  rewrite slice_from_neg, slice_to_neg by lia.
  fold (last_n n pool) (without_last_n n pool).
  rewrite bind_unfold, eq_num_int, last_n_length by lia.
  rewrite Z.eqb_refl. reflexivity.
Qed.



(** A request at or above the pool size: the whole pool is returned, and
    the splitter is left as it was. *)
Lemma split_whole_pool s d pool n :
  fit_data s = Some d ->
  (if _is_regression d then True else is_Some (_label_indices_list_in_use s)) ->
  _remained_indices s = Some pool ->
  le_num (PInt (len pool)) n = true ->
  split n s =
    (inr {| dataset_rows := rev pool;
            corresponding_indices := pool;
            remaining_indices := [] |}, s).
Proof.
  intros Hd Hready Hpool Hn. unfold split. rewrite bind_get. cbv beta.
  rewrite (bind_attr _ d) by exact Hd. cbv beta.
  assert (Hchecks :
    (_is_regression d && negb (bool_decide (is_Some (_remained_indices s))) = false) /\
    (negb (_is_regression d)
       && negb (bool_decide (is_Some (_label_indices_list_in_use s))) = false)).
  { rewrite Hpool. destruct (_is_regression d).
    - split; reflexivity.
    - destruct Hready as [v ->]. split; reflexivity. }
  destruct Hchecks as [-> ->].
  rewrite (bind_some _ pool) by exact Hpool. cbv beta. rewrite Hn.
  unfold remained_indices. rewrite bind_unfold, bind_get. cbv beta.
  rewrite (bind_some _ pool) by exact Hpool. reflexivity.
Qed.

(** A float of 1 or more cannot bound a slice: the regression method
    raises and leaves the splitter as it was. *)
Lemma split_regression_float s d pool r q :
  regression_ready s d pool ->
  le_num (PInt (len pool)) r = false ->
  effective_count d r = PFloat q ->
  split r s = (inl TypeError, s).
Proof.
  intros (Hts & Hd & Hreg & Hpool) Hbelow Hreq.
  rewrite (split_below_pool s d pool r).
  2:{ split; [exact Hd|]. split; [now rewrite Hreg|]. split; assumption. }
  rewrite Hreq. unfold split_count. rewrite bind_get. cbv beta.
  rewrite Hts, Hreg. unfold _split_reg. rewrite bind_unfold, bind_get.
  cbv beta. rewrite (bind_some _ pool) by exact Hpool. cbv beta. reflexivity.
Qed.

End Regression.

Section RegressionWitnesses.
Import Py Splitter States Samples.


Lemma split_whole_pool_witness :
  split (PInt 10) stratified_7_3 =
    (inr {| dataset_rows := rev [0; 1; 2; 3; 4; 5; 6; 7; 8; 9];
            corresponding_indices := [0; 1; 2; 3; 4; 5; 6; 7; 8; 9];
            remaining_indices := [] |}, stratified_7_3).
Proof.
  apply (split_whole_pool stratified_7_3
           {| _is_regression := false; _x := rows 10;
              _y := [0; 0; 0; 0; 0; 0; 0; 1; 1; 1] |}).
  - reflexivity.
  - exists [[0; 1; 2; 3; 4; 5; 6]; [7; 8; 9]]. reflexivity.
  - reflexivity.
  - reflexivity.
Defined.

End RegressionWitnesses.

Section Lowering.
Import Py Rand Splitter States.

Lemma lowered_length h sign k counts :
  length (lowered h sign k counts) = length counts.
Proof.
  revert k. induction counts as [|c counts IH]; intros k; simpl;
    [reflexivity|now rewrite IH].
Qed.















End Lowering.

Section StratifiedCounts.
Import Py Rand Splitter States.

Lemma range_cons a b : a < b -> range a b = a :: range (a + 1) b.
Proof.
  intros H. unfold range.
  replace (Z.to_nat (b - a)) with (S (Z.to_nat (b - (a + 1)))) by lia.
  simpl. f_equal; [lia|].
  rewrite <- seq_shift, map_map. apply map_ext. intros k. lia.
Qed.

Lemma range_nil a b : b <= a -> range a b = [].
Proof. intros H. unfold range. now replace (Z.to_nat (b - a)) with 0%nat by lia. Qed.

Lemma range_NoDup a b : List.NoDup (range a b).
Proof.
  unfold range. apply Finite.Injective_map_NoDup; [|apply seq_NoDup].
  intros x y H. lia.
Qed.

Lemma filter_positions (P : Z -> bool) (l : list Z) (k : Z) :
  length (List.filter (fun i => P (nth (Z.to_nat (i - k)) l 0))
                 (range k (k + len l)))
  = length (List.filter P l).
Proof.
  revert k. induction l as [|a l IH]; intros k.
  - rewrite range_nil by (unfold len; simpl; lia). reflexivity.
  - rewrite range_cons by (unfold len; simpl; lia).
    cbn [List.filter].
    assert (E : List.filter (fun i => P (nth (Z.to_nat (i - k)) (a :: l) 0))
                       (range (k + 1) (k + len (a :: l)))
                = List.filter (fun i => P (nth (Z.to_nat (i - (k + 1))) l 0))
                         (range (k + 1) (k + 1 + len l))).
    { replace (k + len (a :: l)) with (k + 1 + len l)
        by (unfold len; simpl length; lia).
      apply filter_ext_in. intros i Hi. apply in_range in Hi.
      replace (Z.to_nat (i - k)) with (S (Z.to_nat (i - (k + 1)))) by lia.
      reflexivity. }
    rewrite E, Z.sub_diag. change (nth (Z.to_nat 0) (a :: l) 0) with a.
    destruct (P a); cbn [length]; now rewrite IH.
Qed.

Lemma ceil_div_bounds e c :
  0 < c -> 0 < e ->
  1 <= ceil_div e c /\ (ceil_div e c - 1) * c < e <= ceil_div e c * c.
Proof.
  intros Hc He. unfold ceil_div.
  pose proof (Z.div_mod (- e) c ltac:(lia)) as Hdm.
  pose proof (Z.mod_pos_bound (- e) c Hc) as Hmod.
  nia.
Qed.

Lemma ceil_div_one e c : 0 < e <= c -> ceil_div e c = 1.
Proof.
  intros H. destruct (ceil_div_bounds e c) as (H1 & H2 & H3); [lia|lia|].
  nia.
Qed.

Lemma round_half_even_nonneg q : (0 <= q)%Q -> 0 <= round_half_even q.
Proof.
  intros Hq. unfold round_half_even.
  assert (0 <= Qfloor q).
  { change 0 with (Qfloor 0). now apply Qfloor_resp_le. }
  destruct (q - inject_Z (Qfloor q) ?= 1 # 2)%Q; [destruct (Z.even _)|..]; lia.
Qed.


Lemma In_skipn {A} (k : nat) (l : list A) v : In v (skipn k l) -> In v l.
Proof.
  intros H. rewrite <- (firstn_skipn k l). apply in_or_app. now right.
Qed.


(** When the rounded counts miss [n] and every one of them is 1, there is
    no label to adjust: the number of rounds is the ceiling of a division
    by zero, and the method ends with [OverflowError] before any pool is
    touched. *)
Theorem n_samples_per_label_nothing_to_adjust (n : Z) s stats :
  label_statistics s = Some stats ->
  _n_unique_labels stats = len (_label_ratios stats) ->
  let floored := rounded_counts (PInt n) (_label_ratios stats) in
  sum floored <> n ->
  Forall (fun c => c = 1) floored ->
  exists g,
    n_samples_per_label (PInt n) s = (inl OverflowError, set_random_state g s).
Proof.
  intros Hstats HL floored Hne Hall.
  unfold n_samples_per_label. rewrite bind_get. cbv beta.
  rewrite (bind_attr _ stats) by exact Hstats. cbv beta. fold floored.
  cbn [sub_num]. rewrite eq_num_int.
  destruct (Z.eqb_spec (sum floored - n) 0) as [E0|_]; [lia|]. cbn [negb].
  assert (Hlen : len floored = len (_label_ratios stats)).
  { unfold floored, rounded_counts, len. now rewrite length_map. }
  unfold bind at 1. unfold bind at 1. unfold bind at 1.
  rewrite HL, <- Hlen, Z.eqb_refl. unfold ret at 1.
  assert (Hnil : List.filter
            (fun i => negb (nth (Z.to_nat i) floored 0 =? 1))
            (arange (len floored)) = []).
  { pose proof (filter_positions (fun c => negb (c =? 1)) floored 0) as Hp.
    assert (Hz : List.filter (fun c => negb (c =? 1)) floored = []).
    { clear - Hall. induction Hall as [|c l Hc _ IH]; [reflexivity|].
      simpl. subst c. simpl. exact IH. }
    rewrite Hz in Hp. apply length_zero_iff_nil.
    etransitivity; [|exact Hp]. f_equal. apply filter_ext. intros i.
    now rewrite Z.sub_0_r. }
  rewrite Hnil. unfold np_shuffle. cbn [shuffle].
  exists (random_state s). reflexivity.
Qed.

End StratifiedCounts.

Section StratifiedCountsWitness.
Import Py Splitter States Samples.


Lemma n_samples_per_label_nothing_to_adjust_witness :
  exists g,
    n_samples_per_label (PInt 4) stratified_thirds
    = (inl OverflowError, set_random_state g stratified_thirds).
Proof.
  destruct (label_statistics stratified_thirds) as [stats|] eqn:E;
    [|discriminate E].
  apply (n_samples_per_label_nothing_to_adjust 4 stratified_thirds stats E).
  - injection E as <-. reflexivity.
  - injection E as <-. vm_compute. discriminate.
  - injection E as <-. vm_compute. repeat constructor.
Defined.

End StratifiedCountsWitness.

Section NeverRaises.
Import Splitter States.

Lemma never_raises_ret {A} e (a : A) : never_raises e (ret a).
Proof. intros s. discriminate. Qed.

Lemma never_raises_raise {A} e e' : e' <> e -> never_raises e (@raise A e').
Proof. intros H s. simpl. congruence. Qed.

Lemma never_raises_get e : never_raises e get.
Proof. intros s. discriminate. Qed.

Lemma never_raises_modify e f : never_raises e (modify f).
Proof. intros s. discriminate. Qed.

Lemma never_raises_bind {A B} e (m : M A) (f : A -> M B) :
  never_raises e m -> (forall a, never_raises e (f a)) ->
  never_raises e (bind m f).
Proof.
  intros Hm Hf s. unfold bind. specialize (Hm s).
  destruct (m s) as [[e'|a] s']; [|apply Hf].
  cbn [fst] in *. intros E. apply Hm. congruence.
Qed.

Lemma never_raises_assert e b : AssertionError <> e -> never_raises e (assert b).
Proof.
  intros H. destruct b; [apply never_raises_ret|now apply never_raises_raise].
Qed.

Lemma never_raises_some {A} e (o : option A) :
  TypeError <> e -> never_raises e (some o).
Proof.
  intros H. destruct o; [apply never_raises_ret|now apply never_raises_raise].
Qed.

Lemma never_raises_attr {A} e (o : option A) :
  AttributeError <> e -> never_raises e (attr o).
Proof.
  intros H. destruct o; [apply never_raises_ret|now apply never_raises_raise].
Qed.

Lemma never_raises_hstack e ls : EmptyInput <> e -> never_raises e (hstack ls).
Proof.
  intros H. destruct ls; [now apply never_raises_raise|apply never_raises_ret].
Qed.

Lemma never_raises_np_shuffle e l : never_raises e (np_shuffle l).
Proof.
  intros s. unfold np_shuffle.
  destruct (Rand.shuffle (random_state s) l). discriminate.
Qed.

Lemma never_raises_np_shuffle_each e ls : never_raises e (np_shuffle_each ls).
Proof.
  intros s. unfold np_shuffle_each.
  destruct (Rand.shuffle_each (random_state s) ls). discriminate.
Qed.

End NeverRaises.

Ltac no_raise_step :=
  first
    [ apply never_raises_ret
    | apply never_raises_get
    | apply never_raises_modify
    | apply never_raises_np_shuffle
    | apply never_raises_np_shuffle_each
    | apply never_raises_raise; discriminate
    | apply never_raises_assert; discriminate
    | apply never_raises_some; discriminate
    | apply never_raises_attr; discriminate
    | apply never_raises_hstack; discriminate
    | apply never_raises_bind; [|intros ?]
    | match goal with
      | |- States.never_raises _ (match ?d with _ => _ end) => destruct d
      end ].
Ltac no_raise := repeat no_raise_step.

Section InsufficientLabels.
Import Py Splitter States.

Lemma n_samples_per_label_no_InsufficientLabels n :
  never_raises InsufficientLabels (n_samples_per_label n).
Proof. unfold n_samples_per_label. no_raise. Qed.

Lemma count_overlap_no_InsufficientLabels k tgt remain :
  never_raises InsufficientLabels (count_overlap k tgt remain).
Proof. unfold count_overlap. cbv zeta. no_raise. Qed.

Lemma _split_clf_too_few n s stats :
  label_statistics s = Some stats ->
  lt_num n (PInt (_n_unique_labels stats)) = true ->
  _split_clf n s = (inl InsufficientLabels, s).
Proof.
  intros Hstats H. unfold _split_clf. rewrite bind_get. cbv beta.
  rewrite (bind_attr _ stats) by exact Hstats. cbv beta.
  rewrite H. reflexivity.
Qed.

Lemma _split_clf_enough n s stats :
  label_statistics s = Some stats ->
  lt_num n (PInt (_n_unique_labels stats)) = false ->
  (_split_clf n s).1 <> inl InsufficientLabels.
Proof.
  intros Hstats H. unfold _split_clf. rewrite bind_get. cbv beta.
  rewrite (bind_attr _ stats) by exact Hstats. cbv beta.
  rewrite H.
  match goal with
  | |- (?m s).1 <> _ =>
      enough (never_raises InsufficientLabels m) as K by exact (K s)
  end.
  apply never_raises_bind; [apply n_samples_per_label_no_InsufficientLabels|].
  intros counts. cbv zeta. no_raise. apply count_overlap_no_InsufficientLabels.
Qed.

(** C7. For a classification splitter and a request below the pool size,
    [split] fails with the insufficient-labels error exactly when the
    count (the request itself, or the number of rows a request below 1
    stands for) is below the number of unique labels; and when it fails
    so, the splitter is left as it was, pools included. *)
Theorem insufficient_labels_iff s d stats in_use pool r :
  classification_ready s d stats in_use pool ->
  le_num (PInt (len pool)) r = false ->
  ((split r s).1 = inl InsufficientLabels
     <-> lt_num (effective_count d r) (PInt (_n_unique_labels stats)) = true) /\
  ((split r s).1 = inl InsufficientLabels -> (split r s).2 = s).
Proof.
  intros (Hts & Hd & Hreg & Hstats & Hlab & Hpool) Hbelow.
  assert (Hb : below_pool s d pool r).
  { split; [exact Hd|]. split; [rewrite Hreg, Hlab; eauto|]. split; assumption. }
  rewrite (split_below_pool s d pool r Hb).
  unfold split_count. rewrite bind_get. cbv beta. rewrite Hts, Hreg.
  rewrite bind_unfold.
  destruct (lt_num (effective_count d r) (PInt (_n_unique_labels stats))) eqn:Hlt.
  - rewrite (_split_clf_too_few _ s stats Hstats Hlt).
    split; [tauto|reflexivity].
  - assert (Hno : forall X : Prop,
              (match _split_clf (effective_count d r) s with
               | (inl e, s') => (inl e, s')
               | (inr tgt_indices, s') =>
                   (do_ assert (eq_num (PInt (len tgt_indices)) (effective_count d r));
                    do s0 <- get;
                    do pool0 <- some (_remained_indices s0);
                    ret {| dataset_rows := tgt_indices;
                           corresponding_indices := tgt_indices;
                           remaining_indices := pool0 |}) s'
               end).1 = inl InsufficientLabels -> X).
    { intros X H. exfalso. revert H.
      pose proof (_split_clf_enough _ s stats Hstats Hlt) as Hne.
      destruct (_split_clf (effective_count d r) s) as [[e|tgt] s1];
        cbn [fst] in *.
      - congruence.
      - match goal with
        | |- (?m s1).1 = _ -> _ =>
            enough (never_raises InsufficientLabels m) as K by exact (K s1)
        end.
        no_raise. }
    split; [split; [apply Hno|discriminate]|apply Hno].
Qed.

End InsufficientLabels.

Section InsufficientLabelsWitness.
Import Py Splitter States Samples.

Lemma insufficient_labels_iff_witness :
  (split (PFloat (3 # 2)) stratified_7_3).1 = inl InsufficientLabels /\
  (split (PFloat (3 # 2)) stratified_7_3).2 = stratified_7_3 /\
  (split (PInt 2) stratified_7_3).1 <> inl InsufficientLabels.
Proof.
  destruct (label_statistics stratified_7_3) as [stats|] eqn:E;
    [|discriminate E].
  assert (Hready :
    classification_ready stratified_7_3
      {| _is_regression := false; _x := rows 10;
         _y := [0; 0; 0; 0; 0; 0; 0; 1; 1; 1] |}
      stats
      [[0; 1; 2; 3; 4; 5; 6]; [7; 8; 9]]
      [0; 1; 2; 3; 4; 5; 6; 7; 8; 9]).
  { repeat split. exact E. }
  assert (Hk : _n_unique_labels stats = 2) by (injection E as <-; reflexivity).
  destruct (insufficient_labels_iff _ _ _ _ _ (PFloat (3 # 2)) Hready eq_refl)
    as [Hiff Hkept].
  destruct (insufficient_labels_iff _ _ _ _ _ (PInt 2) Hready eq_refl)
    as [Hiff2 _].
  rewrite Hk in Hiff, Hiff2.
  assert (Hfails : (split (PFloat (3 # 2)) stratified_7_3).1
                   = inl InsufficientLabels)
    by (apply Hiff; reflexivity).
  split; [exact Hfails|]. split; [exact (Hkept Hfails)|].
  intros H. apply Hiff2 in H. discriminate H.
Defined.

End InsufficientLabelsWitness.

Section SplitMultiple.
Import Py Splitter States.

Lemma split_each_length l s results s' :
  split_each l s = (inr results, s') -> length results = length l.
Proof.
  revert s results s'. induction l as [|n l IH]; intros s results s' H.
  - injection H as <- _. reflexivity.
  - simpl in H. rewrite bind_unfold in H.
    destruct (split n s) as [[e|r] s1]; [discriminate|].
    rewrite bind_unfold in H.
    destruct (split_each l s1) as [[e|rs] s2] eqn:E; [discriminate|].
    injection H as <- _. simpl. f_equal. eapply IH. exact E.
Qed.

Lemma removelast_length {A} (l : list A) :
  l <> [] -> length (removelast l) = (length l - 1)%nat.
Proof.
  intros H. destruct (exists_last H) as (l' & a & ->).
  rewrite removelast_last, length_app. simpl. lia.
Qed.

(** The counts [split_multiple] makes of a list of fractions whose sum, as
    Python adds them up, is less than 1: one for each fraction, the last of
    them by difference, and one more for the rows that are left. *)
Lemma split_multiple_fractions n_list return_remained s d :
  fit_data s = Some d ->
  n_list <> [] ->
  forallb (fun n_ => le_num n_ (PInt 1)) n_list = true ->
  lt_num (sum_num n_list) (PInt 1) = true ->
  let n_total := len (_x d) in
  let n_selected := int_mul n_total (sum_num n_list) in
  let front := map (int_mul n_total) (removelast n_list) in
  split_multiple n_list return_remained s =
  split_each (map PInt (front ++ [n_selected - sum front])
                ++ [PInt (n_total - n_selected)]) s.
Proof.
  intros Hd Hne Hall Hsum n_total n_selected front.
  unfold split_multiple. rewrite bind_get. cbv beta.
  rewrite (bind_attr _ d) by exact Hd. cbv beta.
  rewrite Hall. cbn [negb].
  rewrite (lt_num_asym _ _ Hsum), (lt_num_not_eq _ _ Hsum), andb_false_r.
  rewrite Hsum.
  destruct n_list as [|n0 l]; [congruence|]. reflexivity.
Qed.

(** C10, as the code has it. For a non-empty list of fractions, each at
    most 1, whose sum (the float that Python's [sum] gives) is below 1,
    [split_multiple] appends a split of the rows the fractions leave,
    whatever [return_remained] says: the counts it hands to [split] are
    one more than the fractions and sum to the number of rows, and the
    list it returns, when every one of these splits returns, has one more
    element than the list it was given. *)
Theorem split_multiple_appends_remainder n_list return_remained s d :
  fit_data s = Some d ->
  n_list <> [] ->
  forallb (fun n_ => le_num n_ (PInt 1)) n_list = true ->
  lt_num (sum_num n_list) (PInt 1) = true ->
  exists counts,
    split_multiple n_list return_remained s = split_each (map PInt counts) s /\
    length counts = S (length n_list) /\
    sum counts = len (_x d) /\
    forall results s',
      split_multiple n_list return_remained s = (inr results, s') ->
      length results = S (length n_list).
Proof.
  intros Hd Hne Hall Hsum.
  pose proof (split_multiple_fractions n_list return_remained s d
                Hd Hne Hall Hsum) as H. cbv zeta in H.
  set (n_total := len (_x d)) in *.
  set (n_selected := int_mul n_total (sum_num n_list)) in *.
  set (front := map (int_mul n_total) (removelast n_list)) in *.
  exists ((front ++ [n_selected - sum front]) ++ [n_total - n_selected]).
  assert (Hlen : length ((front ++ [n_selected - sum front])
                           ++ [n_total - n_selected]) = S (length n_list)).
  { rewrite !length_app. subst front. rewrite length_map.
    rewrite removelast_length by assumption. simpl.
    destruct n_list; [congruence|]. simpl. lia. }
  split; [|split; [exact Hlen|split]].
  - rewrite H. rewrite (map_app PInt (front ++ _)). reflexivity.
  - rewrite !sum_app. simpl. lia.
  - intros results s' Hr. rewrite H in Hr.
    apply split_each_length in Hr. rewrite Hr.
    rewrite length_app, length_map. rewrite length_app in Hlen.
    simpl in *. lia.
Qed.

End SplitMultiple.

Section SplitMultipleWitness.
Import Py Splitter States Samples.

Lemma split_multiple_appends_remainder_witness :
  exists counts,
    split_multiple [PFloat (2 # 5); PFloat (1 # 5)] false plain_regression
      = split_each (map PInt counts) plain_regression /\
    length counts = 3%nat /\
    sum counts = 5 /\
    forall results s',
      split_multiple [PFloat (2 # 5); PFloat (1 # 5)] false plain_regression
        = (inr results, s') ->
      length results = 3%nat.
Proof.
  apply (split_multiple_appends_remainder
           [PFloat (2 # 5); PFloat (1 # 5)] false plain_regression
           {| _is_regression := true; _x := rows 5;
              _y := [10; 20; 30; 40; 50] |}).
  - reflexivity.
  - discriminate.
  - reflexivity.
  - reflexivity.
Defined.

(** On five rows the fractions 0.4 and 0.2 give the counts 2, 1 and 2, and
    the three splits return. *)
Example split_multiple_two_fractions :
  map corresponding_indices
      (match (split_multiple [PFloat (2 # 5); PFloat (1 # 5)] false
                plain_regression).1 with
       | inr results => results
       | inl _ => []
       end)
  = [[3; 4]; [2]; [0; 1]].
Proof. vm_compute. reflexivity. Qed.

(** The fractions 0.5 and 0.49999999999999994 add up to the float 1.0:
    nothing is appended, and with [return_remained] the call is refused. *)
Example split_multiple_sum_rounds_to_one :
  let halves := [PFloat (1 # 2); PFloat (9007199254740991 # 18014398509481984)] in
  eq_num (sum_num halves) (PInt 1) = true /\
  (split_multiple halves true plain_regression).1 = inl SumIsOne /\
  (split_multiple
     [PFloat (7 # 10); PFloat (1 # 5); PFloat (1 # 10)] true plain_regression).1
    <> inl SumIsOne.
Proof. vm_compute. repeat split. discriminate. Qed.

(** C10, as the claim has it, fails on two kinds of list. The empty list
    is a list of fractions each at most 1 with a sum below 1, and the call
    ends at the assignment to its last element. The list of the one
    fraction 0.1, on five rows, is turned into the counts 0 and 5, and the
    split of 0 rows fails its own size assertion: nothing is returned. *)
Lemma split_multiple_counterexample :
  (forallb (fun n_ => le_num n_ (PInt 1)) [] = true /\
   lt_num (sum_num []) (PInt 1) = true /\
   split_multiple [] false plain_regression = (inl IndexError, plain_regression) /\
   split_multiple [] true plain_regression = (inl IndexError, plain_regression)) /\
  (forallb (fun n_ => le_num n_ (PInt 1)) [PFloat (1 # 10)] = true /\
   lt_num (sum_num [PFloat (1 # 10)]) (PInt 1) = true /\
   split_multiple [PFloat (1 # 10)] false plain_regression
     = (inl AssertionError, plain_regression)).
Proof. vm_compute. repeat split. Qed.

End SplitMultipleWitness.

Section ResetRegression.
Import Py Rand Splitter States.

Lemma arange_NoDup n : List.NoDup (arange n).
Proof. apply range_NoDup. Qed.

Lemma same_but_pool_refl s : same_but_pool s s.
Proof. repeat split. Qed.

Lemma _reset_reg_pool s d :
  fit_data s = Some d ->
  exists pool s',
    _reset_reg s = (inr tt, s') /\
    _remained_indices s' = Some pool /\
    Permutation (arange (len (_x d))) pool /\
    (_shuffle s = false -> pool = arange (len (_x d))) /\
    same_but_pool s s'.
Proof.
  intros Hd. unfold _reset_reg. rewrite bind_get. cbv beta.
  rewrite (bind_attr _ d) by exact Hd. cbv beta.
  destruct (_shuffle s) eqn:Hsh; cbn [negb].
  - rewrite bind_unfold. unfold np_shuffle.
    pose proof (shuffle_Permutation (random_state s) (arange (len (_x d)))) as Hp.
    destruct (shuffle (random_state s) (arange (len (_x d)))) as [pool g].
    exists pool. eexists. split; [reflexivity|]. cbn [fst] in Hp.
    split; [reflexivity|]. split; [exact Hp|]. split; [discriminate|].
    repeat split.
  - exists (arange (len (_x d))). eexists. split; [reflexivity|].
    split; [reflexivity|]. split; [reflexivity|]. split; [reflexivity|].
    repeat split.
Qed.

(** [reset] on a regression splitter makes every row available again,
    exactly once, whatever was drawn before: the new pool is a permutation
    of all row positions, and it is these positions in ascending order
    when the splitter does not shuffle. No attribute but the pool and the
    random source changes. *)
Theorem reset_regression_full_pool s d :
  _time_column s = Some None ->
  fit_data s = Some d ->
  _is_regression d = true ->
  exists pool s',
    reset s = (inr tt, s') /\
    _remained_indices s' = Some pool /\
    Permutation (arange (len (_x d))) pool /\
    List.NoDup pool /\
    (_shuffle s = false -> pool = arange (len (_x d))) /\
    same_but_pool s s'.
Proof.
  intros Htc Hd Hreg. unfold reset. rewrite bind_get. cbv beta.
  rewrite (bind_attr _ None) by exact Htc. cbv beta.
  rewrite (bind_attr _ d) by exact Hd. cbv beta. rewrite Hreg.
  destruct (_reset_reg_pool s d Hd) as (pool & s' & H1 & H2 & H3 & H4 & H5).
  exists pool, s'. repeat split; try assumption; try apply H5.
  eapply Permutation_NoDup; [exact H3|apply arange_NoDup].
Qed.

(** [fit] on a splitter without a time-series configuration, for a
    regression task. *)
Lemma fit_regression dataset s :
  _time_series_config s = None ->
  task_type dataset = REGRESSION ->
  let d := {| _is_regression := true; _x := x dataset; _y := y dataset |} in
  exists pool s',
    fit dataset s = (inr tt, s') /\
    regression_ready s' d pool /\
    Permutation (arange (len (x dataset))) pool /\
    (_shuffle s = false -> pool = arange (len (x dataset))) /\
    _replace s' = _replace s.
Proof.
  intros Hcfg Htask d. unfold fit. rewrite bind_get. cbv beta.
  rewrite Hcfg, Htask. cbn [is_REGRESSION]. fold d.
  rewrite bind_unfold. unfold modify at 1.
  rewrite bind_unfold. unfold modify at 1.
  unfold reset. rewrite bind_get. cbv beta.
  cbn [_time_column set_time_column set_fit_data].
  rewrite (bind_attr _ None) by reflexivity. cbv beta.
  rewrite (bind_attr _ d) by reflexivity. cbv beta.
  cbn [_is_regression d].
  match goal with |- context [_reset_reg ?s2] =>
    destruct (_reset_reg_pool s2 d eq_refl) as (pool & s' & H1 & H2 & H3 & H4 & H5)
  end.
  cbn [_shuffle set_time_column set_fit_data] in H4. cbn [_x d] in H3, H4.
  exists pool, s'. split; [exact H1|].
  destruct H5 as (E1 & E2 & E3 & E4 & _).
  cbn [set_time_column set_fit_data _time_series_config _shuffle _replace
       fit_data] in *.
  split.
  { repeat split.
    - unfold is_time_series. now rewrite E1, Hcfg.
    - exact E4.
    - exact H2. }
  repeat split; assumption.
Qed.

End ResetRegression.

Section WrapperSplit.
Import Py Rand Splitter States.

Lemma skipn_range (k : nat) a b :
  skipn k (range a b) = range (a + Z.of_nat k) b.
Proof.
  revert a. induction k as [|k IH]; intros a.
  - simpl. now rewrite Z.add_0_r.
  - destruct (Z.lt_ge_cases a b) as [Hlt|Hge].
    + rewrite (range_cons a b Hlt). cbn [skipn]. rewrite IH. f_equal. lia.
    + rewrite !range_nil by lia. reflexivity.
Qed.

Lemma firstn_range (k : nat) a b :
  a + Z.of_nat k <= b -> firstn k (range a b) = range a (a + Z.of_nat k).
Proof.
  revert a. induction k as [|k IH]; intros a Hk.
  - cbn [firstn]. rewrite (range_nil a (a + Z.of_nat 0)) by lia. reflexivity.
  - rewrite (range_cons a b) by lia. rewrite (range_cons a (a + Z.of_nat (S k))) by lia.
    cbn [firstn]. rewrite IH by lia. do 2 f_equal. lia.
Qed.

(** [TabularData.split] on a regression dataset: for a ratio below 1 that
    amounts to [n] rows (the integer part of the double product of the
    number of rows and the ratio), with [n] at least 1 and below the number
    of rows, the first part is made of the last [n] rows and the second of
    the rows before them, both in their original order. *)
Theorem tabular_split_regression dataset (ratio : pynum) g :
  task_type dataset = REGRESSION ->
  lt_num ratio (PInt 1) = true ->
  let rows := len (x dataset) in
  let n := int_mul rows ratio in
  1 <= n < rows ->
  Wrapper.split dataset ratio g
  = inr (range (rows - n) rows, range 0 (rows - n)).
Proof.
  intros Htask Hq rows n Hn. unfold Wrapper.split.
  cbn [Splitter.init].
  match goal with |- context [bind _ _ ?s0] => set (s0' := s0) end.
  destruct (fit_regression dataset s0' eq_refl Htask)
    as (pool & s' & Hfit & Hready & _ & Hpool & Hrep).
  specialize (Hpool eq_refl). subst pool. fold rows in Hready.
  rewrite bind_unfold, Hfit.
  set (d := {| _is_regression := true; _x := x dataset; _y := y dataset |}) in *.
  assert (Hreq : effective_count d ratio = PInt n).
  { unfold effective_count. rewrite Hq. reflexivity. }
  assert (Hlen : len (arange rows) = rows).
  { unfold len, arange. rewrite range_length. lia. }
  rewrite (split_regression_without_replacement s' d (arange rows) ratio n
             Hready Hreq ltac:(lia) Hrep).
  cbn [corresponding_indices remaining_indices].
  unfold last_n, without_last_n, arange.
  rewrite skipn_range, firstn_range; rewrite range_length; [|lia].
  do 3 f_equal; lia.
Qed.

End WrapperSplit.

Section ResetWitnesses.
Import Py Splitter States Samples.

Lemma reset_regression_full_pool_witness :
  exists pool s',
    reset (split (PInt 2) plain_regression).2 = (inr tt, s') /\
    _remained_indices s' = Some pool /\
    pool = [0; 1; 2; 3; 4] /\
    same_but_pool (split (PInt 2) plain_regression).2 s'.
Proof.
  destruct (reset_regression_full_pool (split (PInt 2) plain_regression).2
              {| _is_regression := true; _x := rows 5;
                 _y := [10; 20; 30; 40; 50] |})
    as (pool & s' & H1 & H2 & _ & _ & H3 & H4).
  - reflexivity.
  - reflexivity.
  - reflexivity.
  - exists pool, s'. split; [exact H1|]. split; [exact H2|].
    split; [apply H3; reflexivity|exact H4].
Defined.

Lemma tabular_split_regression_witness :
  Wrapper.split (regression_rows 10) (PFloat (3 # 10)) []
  = inr ([7; 8; 9], [0; 1; 2; 3; 4; 5; 6]).
Proof.
  apply (tabular_split_regression (regression_rows 10) (PFloat (3 # 10)) []).
  - reflexivity.
  - reflexivity.
  - vm_compute. split; [discriminate|reflexivity].
Defined.

(** On a hundred rows the ratio 0.29 gives 28 rows, not 29: the double
    product is just below 29. *)
Example tabular_split_rounds_down :
  option_map (fun parts => len (fst parts))
    (match Wrapper.split (regression_rows 100) (PFloat (29 # 100)) [] with
     | inr parts => Some parts
     | inl _ => None
     end) = Some 28.
Proof. vm_compute. reflexivity. Qed.

End ResetWitnesses.

Section TimeSeries.
Import Py Splitter States.

Lemma _reset_time_series_unfit s t :
  _time_indices_list s = None ->
  _time_column s = Some (Some t) ->
  _reset_time_series s = (inl UnpackError, s).
Proof.
  intros Hlist Htc. unfold _reset_time_series. rewrite bind_get. cbv beta.
  rewrite Hlist. rewrite bind_unfold, bind_unfold.
  rewrite Htc. reflexivity.
Qed.

Lemma reset_unfit s :
  time_series_unfit s ->
  reset s = (inl UnpackError, s) \/ reset s = (inl AttributeError, s).
Proof.
  intros (_ & Hlist & _ & _ & Htc). unfold reset. rewrite bind_get. cbv beta.
  destruct (_time_column s) as [[t|]|] eqn:E.
  - left. rewrite (bind_attr _ (Some t)) by reflexivity. cbv beta.
    now apply (_reset_time_series_unfit s t).
  - congruence.
  - right. reflexivity.
Qed.

Lemma split_unfit n s :
  time_series_unfit s -> split n s = (inl NotReset, s).
Proof.
  intros ([d Hd] & _ & Hpool & Hlab & _). unfold split. rewrite bind_get.
  cbv beta. rewrite (bind_attr _ d) by exact Hd. cbv beta.
  rewrite Hpool, Hlab. destruct (_is_regression d); reflexivity.
Qed.

Lemma fit_time_series cfg shuffle replace g ds s0 :
  init (Some cfg) shuffle replace g = inr s0 ->
  ((fit ds s0).1 = inl UnpackError \/ (fit ds s0).1 = inl MixedColumns) /\
  time_series_unfit (fit ds s0).2.
Proof.
  intros Hinit. unfold init in Hinit.
  destruct replace; [discriminate|].
  destruct (cfg_id_column cfg) as [idc|] eqn:Eid; [|discriminate].
  destruct (cfg_time_column cfg) as [tc|] eqn:Etc; [|discriminate].
  injection Hinit as <-.
  unfold fit. rewrite bind_get. cbv beta.
  cbn [_time_series_config].
  rewrite bind_unfold. unfold modify at 1.
  rewrite bind_unfold, bind_unfold. rewrite Eid. unfold some at 1, ret at 1.
  rewrite bind_unfold. rewrite Etc. unfold some at 1, ret at 1.
  destruct idc as [ids|idp], tc as [times|tp].
  - unfold modify at 1.
    match goal with |- context [reset ?s] => set (s1 := s) end.
    assert (H1 : reset s1 = (inl UnpackError, s1)).
    { unfold reset. rewrite bind_get. cbv beta.
      rewrite (bind_attr _ (Some times)) by reflexivity. cbv beta.
      now apply (_reset_time_series_unfit s1 times). }
    rewrite H1. split; [now left|].
    split; [eexists; reflexivity|]. repeat split. discriminate.
  - unfold raise. cbn [fst snd]. split; [now right|].
    split; [eexists; reflexivity|]. repeat split. discriminate.
  - unfold raise. cbn [fst snd]. split; [now right|].
    split; [eexists; reflexivity|]. repeat split. discriminate.
  - rewrite bind_unfold. unfold modify at 1. unfold modify at 1.
    match goal with |- context [reset ?s] => set (s1 := s) end.
    assert (H1 : reset s1 = (inl UnpackError, s1)).
    { unfold reset. rewrite bind_get. cbv beta.
      match goal with |- context [attr (_time_column s1)] =>
        rewrite (bind_attr (_time_column s1) _ _ s1 eq_refl)
      end. cbv beta.
      eapply _reset_time_series_unfit; reflexivity. }
    rewrite H1. split; [now left|].
    split; [eexists; reflexivity|]. repeat split. discriminate.
Qed.

(** A splitter constructed with a time-series configuration never becomes
    ready, whatever the task. [fit] always raises: at the unpacking of the
    helper's four-field record into three names, or before it, when one
    column is given by position and the other by values. After it every
    [reset] raises again and leaves the splitter as it is, and every
    [split] is refused with the not-reset error: no row is ever drawn. *)
Theorem time_series_never_ready cfg shuffle replace g ds s0 (n : pynum) :
  init (Some cfg) shuffle replace g = inr s0 ->
  let s1 := (fit ds s0).2 in
  ((fit ds s0).1 = inl UnpackError \/ (fit ds s0).1 = inl MixedColumns) /\
  (reset s1 = (inl UnpackError, s1) \/ reset s1 = (inl AttributeError, s1)) /\
  split n s1 = (inl NotReset, s1).
Proof.
  intros Hinit s1.
  destruct (fit_time_series cfg shuffle replace g ds s0 Hinit) as [Hfit Hun].
  split; [exact Hfit|]. split.
  - now apply reset_unfit.
  - now apply split_unfit.
Qed.

End TimeSeries.

Section TimeSeriesWitnesses.
Import Py Splitter States Samples.

Lemma time_series_never_ready_witness :
  let s1 := (fit regression_5 (new_time_series_splitter times_0_4 false [])).2 in
  (fit regression_5 (new_time_series_splitter times_0_4 false [])).1
    = inl UnpackError /\
  reset s1 = (inl UnpackError, s1) /\
  split (PInt 2) s1 = (inl NotReset, s1).
Proof.
  intros s1.
  destruct (time_series_never_ready
              (times_config times_0_4) false false [] regression_5
              (new_time_series_splitter times_0_4 false []) (PInt 2) eq_refl)
    as (_ & _ & Hsplit).
  split; [reflexivity|]. split; [reflexivity|exact Hsplit].
Defined.

(** C4. The time-series path cannot be entered: on five rows observed at
    the times 0 to 4, for a regression task, the constructor accepts the
    configuration, [fit] ends at the unpacking in [_reset_time_series],
    and the first [split] is refused. No index set is returned whose
    order or overlap the claim could be about. *)
Example time_series_split_never_runs :
  let s0 := new_time_series_splitter times_0_4 false [] in
  init (Some (times_config times_0_4)) false false [] = inr s0 /\
  (fit regression_5 s0).1 = inl UnpackError /\
  _time_indices_list_in_use (fit regression_5 s0).2 = None /\
  _remained_indices (fit regression_5 s0).2 = None /\
  (split (PInt 2) (fit regression_5 s0).2).1 = inl NotReset /\
  (split_multiple [PInt 2; PInt 2] false (fit regression_5 s0).2).1
    = inl NotReset.
Proof. vm_compute. repeat split. Qed.

End TimeSeriesWitnesses.

Section SplitSize.
Import Py Rand Splitter States.




End SplitSize.

Section SplitSizeWitnesses.
Import Py Splitter States Samples.



End SplitSizeWitnesses.

Section ClaimExamples.
Import Py Splitter States Samples.


(** C5. A request at the pool size returns the whole pool and reports
    that nothing remains, but the pool is not assigned: the splitter is
    as before, and the same request returns the same rows again. *)
Example split_whole_pool_keeps_the_pool :
  _remained_indices plain_regression = Some [0; 1; 2; 3; 4] /\
  split (PInt 5) plain_regression =
    (inr {| dataset_rows := [4; 3; 2; 1; 0];
            corresponding_indices := [0; 1; 2; 3; 4];
            remaining_indices := [] |}, plain_regression) /\
  _remained_indices (split (PInt 5) plain_regression).2
    = Some [0; 1; 2; 3; 4] /\
  split (PInt 5) (split (PInt 5) plain_regression).2
    = split (PInt 5) plain_regression.
Proof. vm_compute. repeat split. Qed.


End ClaimExamples.

Section SplitFrame.
Import Py Rand Splitter States.

Lemma same_setup_refl s : same_setup s s.
Proof. repeat split. Qed.

Lemma n_samples_per_label_same_setup s0 n :
  preserves (same_setup s0) (n_samples_per_label n).
Proof. unfold n_samples_per_label. preserve. Qed.

Lemma count_overlap_same_setup s0 k tgt remain :
  preserves (same_setup s0) (count_overlap k tgt remain).
Proof. unfold count_overlap. cbv zeta. preserve. Qed.

Lemma _split_clf_same_setup s0 n :
  preserves (same_setup s0) (_split_clf n).
Proof.
  unfold _split_clf. preserve;
    first [ apply n_samples_per_label_same_setup
          | apply count_overlap_same_setup
          | cbv zeta; preserve; apply count_overlap_same_setup ].
Qed.

Lemma _split_reg_same_setup s0 n :
  preserves (same_setup s0) (_split_reg n).
Proof. unfold _split_reg. preserve. Qed.

Lemma _split_time_series_same_setup s0 n :
  preserves (same_setup s0) (_split_time_series n).
Proof. unfold _split_time_series. preserve. Qed.

Lemma split_same_setup s0 r : preserves (same_setup s0) (split r).
Proof.
  unfold split, remained_indices. preserve.
  all: try apply count_overlap_same_setup.
  all: cbv zeta; preserve.
  all: apply count_overlap_same_setup.
Qed.

Lemma split_each_same_setup s0 n_list :
  preserves (same_setup s0) (split_each n_list).
Proof.
  induction n_list as [|n n_list IH]; cbn [split_each].
  - apply preserves_ret.
  - apply preserves_bind; [apply split_same_setup|intros r].
    apply preserves_bind; [exact IH|intros rs]. apply preserves_ret.
Qed.

(** Neither [split] nor [split_multiple] ever assigns what [fit] and the
    first [reset] have set up: the configuration, the two flags, the
    fitted data, the time column, the label statistics, and the full
    per-label and per-time index lists and cumulative counts that [reset]
    starts from are the same after the call as before it, whether the
    call returns or raises. Only the pool, the lists in use and the random
    source can change. *)
Theorem split_keeps_setup (r : pynum) (n_list : list pynum)
    (return_remained : bool) (s : DataSplitter) :
  same_setup s (split r s).2 /\
  same_setup s (split_multiple n_list return_remained s).2.
Proof.
  split.
  - apply split_same_setup, same_setup_refl.
  - assert (H : preserves (same_setup s) (split_multiple n_list return_remained)).
    { unfold split_multiple. preserve; apply split_each_same_setup. }
    apply H, same_setup_refl.
Qed.

End SplitFrame.
